(** * Human-in-the-loop approval workflow

    A shallow embedding of [hitl_implementation.py]: the approval
    policies ([ApprovalLevel]), the review interfaces
    ([CLIReviewInterface], [AutoApproveInterface]), the audit trail
    ([AuditLogger]) and the control loop ([run_agent_with_hitl]).  With
    it: the configuration builder [create_agent_with_hitl], the data
    room the agent's document tools read ([DataRoom] of
    [legal_risk_analysis_agent.py]) and the reader of the audit log in
    [backend/app.py] ([get_audit_logs]).

    Python objects that the code shares and mutates in place (the todo
    list of a [write_todos] action and the todo dicts inside it) live in
    an explicit heap; terminal input, terminal output, the file system
    and the clock are fields of a [world] that every effectful function
    threads.  Exceptions are values of [exn] carried by [outcome].

    Scope.  Action requests, review configurations and decisions are
    records with the fields the code reads, so a request always has a
    name and arguments; the arguments are Python values and may be
    anything.  The agent is a function of the calls made so far and of
    the world; it returns a result and does not raise.  Opening and
    writing files succeeds, on a system whose line end is LF; the
    interpreter's limits on memory and recursion depth are not
    reached.  A [string] is the UTF-8 encoding of a Python [str], and
    the text the terminal and the files hold is well formed: a
    character is one byte below 128, or a lead byte with the
    continuation bytes after it.  A float is carried by its [repr].
    The [json] codec, [repr] of containers, the decimal digits of the
    Unicode database, the digit limit of [int] and the integer a float
    equals belong to the Python runtime and are parameters
    ([PyRuntime]); [MiniRuntime] stands in for them on the inputs of the
    concrete runs. *)

From Stdlib Require Import ZArith Ascii String Lia.
From stdpp Require Import base option list gmap strings pretty.

Open Scope Z_scope.
Open Scope string_scope.

(** ** Exceptions and the state-and-exception monad *)

Inductive exn :=
| EOFError
| ValueError
| JSONDecodeError
| KeyError (key : string)
| TypeError
| AttributeError
| IndexError
| FileNotFoundError
| NotImplementedError.

Inductive outcome (A : Type) :=
| Ok (a : A)
| Raise (e : exn).
Arguments Ok {A} a.
Arguments Raise {A} e.

Definition M (S A : Type) : Type := S -> outcome A * S.

#[global] Instance M_ret {S} : MRet (M S) := fun A a s => (Ok a, s).

#[global] Instance M_bind {S} : MBind (M S) := fun A B f m s =>
  match m s with
  | (Ok a, s') => f a s'
  | (Raise e, s') => (Raise e, s')
  end.

#[global] Instance M_fmap {S} : FMap (M S) := fun A B f m s =>
  match m s with
  | (Ok a, s') => (Ok (f a), s')
  | (Raise e, s') => (Raise e, s')
  end.

#[global] Instance M_throw {S} : MThrow exn (M S) := fun A e s => (Raise e, s).

Definition get {S} : M S S := fun s => (Ok s, s).
Definition modify {S} (f : S -> S) : M S unit := fun s => (Ok tt, f s).

(** [try_except m handles h]: run [m]; an exception [e] with
    [handles e = true] is passed to [h], any other propagates. *)
Definition try_except {S A} (m : M S A) (handles : exn -> bool)
    (h : exn -> M S A) : M S A := fun s =>
  match m s with
  | (Ok a, s') => (Ok a, s')
  | (Raise e, s') => if handles e then h e s' else (Raise e, s')
  end.

Definition is_Ok {A} (o : outcome A) : bool :=
  match o with Ok _ => true | Raise _ => false end.

(** ** Python values, the heap and JSON trees *)

Definition loc := nat.

Inductive pyval :=
| PNone
| PBool (b : bool)
| PInt (z : Z)
| PFloat (repr : string)
| PStr (s : string)
| PRef (l : loc).

(** A dict keeps its entries in insertion order, one entry per key. *)
Inductive pyobj :=
| OList (items : list pyval)
| ODict (entries : list (string * pyval)).

#[warnings="-register-all"]
Inductive json :=
| JNull
| JBool (b : bool)
| JInt (z : Z)
| JFloat (repr : string)
| JStr (s : string)
| JArr (items : list json)
| JObj (members : list (string * json)).

#[global] Instance pyval_eq_dec : EqDecision pyval.
Proof. solve_decision. Defined.

(** The parts of the Python runtime the module calls but does not
    define.

    - [json_loads s] is the value [json.loads(s)] returns, [None] when
      it raises; [json_loads_error s] is then the exception raised: a
      [JSONDecodeError] for text that is not JSON, another error for
      text the decoder gives up on (a [ValueError] for an integer
      with more digits than [int] accepts).
    - [json_dumps] and [json_dumps_indent2] are [json.dumps] without
      and with [indent=2].
    - [py_repr] renders a container as [str()] does inside f-strings.
    - [unicode_decimal c] is the value of the character [c], not an
      ASCII one, when the Unicode database has it as a decimal digit.
    - [int_max_str_digits] is [sys.get_int_max_str_digits()], [0] for
      no limit.
    - [float_integer r] is the integer the float with [repr] [r]
      equals, when it equals one: a dict holds both under one key. *)
Class PyRuntime := {
  json_loads : string -> option json;
  json_loads_error : string -> exn;
  json_dumps : json -> string;
  json_dumps_indent2 : json -> string;
  py_repr : gmap loc pyobj -> loc -> string;
  unicode_decimal : string -> option Z;
  int_max_str_digits : nat;
  float_integer : string -> option Z;
}.

(** Terminal input: a line typed by the human, or an end-of-input
    signal (Ctrl+D).  An exhausted stream also reads as end of input. *)
Inductive input_event :=
| Line (s : string)
| Eof.

Record world := World {
  heap : gmap loc pyobj;
  stdin : list input_event;
  stdout : list string;
  files : gmap string string;
  ticks : nat;
  now_isoformat : nat -> string;
  run_editor : string -> string;
}.

Definition set_heap (h : gmap loc pyobj) (w : world) : world :=
  World h (stdin w) (stdout w) (files w) (ticks w) (now_isoformat w) (run_editor w).
Definition set_stdin (i : list input_event) (w : world) : world :=
  World (heap w) i (stdout w) (files w) (ticks w) (now_isoformat w) (run_editor w).
Definition set_stdout (o : list string) (w : world) : world :=
  World (heap w) (stdin w) o (files w) (ticks w) (now_isoformat w) (run_editor w).
Definition set_files (f : gmap string string) (w : world) : world :=
  World (heap w) (stdin w) (stdout w) f (ticks w) (now_isoformat w) (run_editor w).
Definition set_ticks (t : nat) (w : world) : world :=
  World (heap w) (stdin w) (stdout w) (files w) t (now_isoformat w) (run_editor w).

Abbreviation IO := (M world).

(** [print(s)] *)
Definition print (s : string) : IO unit :=
  modify (fun w => set_stdout (stdout w ++ [s]) w).

(** [input(prompt)]: shows the prompt, then reads one line. *)
Definition input (prompt : string) : IO string := fun w =>
  let w := set_stdout (stdout w ++ [prompt]) w in
  match stdin w with
  | Line s :: rest => (Ok s, set_stdin rest w)
  | Eof :: rest => (Raise EOFError, set_stdin rest w)
  | [] => (Raise EOFError, w)
  end.

(** [datetime.now().isoformat()] *)
Definition datetime_now : IO string := fun w =>
  (Ok (now_isoformat w (ticks w)), set_ticks (S (ticks w)) w).

Definition LF : ascii := ascii_of_nat 10.
Definition CR : ascii := ascii_of_nat 13.

(** What a file opened for reading as text hands over: the line ends
    CR LF and CR are read as LF. *)
Fixpoint universal_newlines (s : string) : string :=
  match s with
  | EmptyString => EmptyString
  | String c r =>
      if Ascii.eqb c CR then
        match r with
        | String c' r' =>
            if Ascii.eqb c' LF then String LF (universal_newlines r')
            else String LF (universal_newlines r)
        | EmptyString => String LF EmptyString
        end
      else String c (universal_newlines r)
  end.

(** Files: [open(path, 'w').write(s)], [open(path, 'r').read()], and
    [open(path, 'a').write(s)], which creates a missing file. *)
Definition write_file (path content : string) : IO unit :=
  modify (fun w => set_files (<[path := content]> (files w)) w).

Definition read_file (path : string) : IO string := fun w =>
  match files w !! path with
  | Some c => (Ok (universal_newlines c), w)
  | None => (Raise FileNotFoundError, w)
  end.

Definition append_file (path content : string) : IO unit :=
  modify (fun w =>
    set_files (<[path := default "" (files w !! path) +:+ content]> (files w)) w).

(** Allocation of a fresh object. *)
Definition alloc (o : pyobj) : IO pyval := fun w =>
  let l := fresh (dom (heap w)) in
  (Ok (PRef l), set_heap (<[l := o]> (heap w)) w).

Definition new_dict (entries : list (string * pyval)) : IO pyval :=
  alloc (ODict entries).
Definition new_list (items : list pyval) : IO pyval :=
  alloc (OList items).

(** Dict entries: lookup, and assignment that keeps the position of an
    existing key and appends a new one. *)
Fixpoint assoc {V} (k : string) (kvs : list (string * V)) : option V :=
  match kvs with
  | [] => None
  | (k', v) :: rest => if String.eqb k k' then Some v else assoc k rest
  end.

Fixpoint assoc_set {V} (k : string) (v : V) (kvs : list (string * V))
    : list (string * V) :=
  match kvs with
  | [] => [(k, v)]
  | (k', v') :: rest =>
      if String.eqb k k' then (k', v) :: rest else (k', v') :: assoc_set k v rest
  end.

(** [v[k]] for a string key [k]. *)
Definition getitem (v : pyval) (k : string) : IO pyval := fun w =>
  match v with
  | PRef l =>
      match heap w !! l with
      | Some (ODict kvs) =>
          match assoc k kvs with
          | Some x => (Ok x, w)
          | None => (Raise (KeyError k), w)
          end
      | _ => (Raise TypeError, w)
      end
  | _ => (Raise TypeError, w)
  end.

(** [v.get(k, default)] *)
Definition dict_get (v : pyval) (k : string) (dflt : pyval) : IO pyval := fun w =>
  match v with
  | PRef l =>
      match heap w !! l with
      | Some (ODict kvs) => (Ok (default dflt (assoc k kvs)), w)
      | _ => (Raise AttributeError, w)
      end
  | _ => (Raise AttributeError, w)
  end.

(** The characters of a string: a byte that is not a continuation
    byte starts one, the continuation bytes after it belong to it.
    [cur] is the character being read. *)
Definition is_continuation (c : ascii) : bool :=
  let n := nat_of_ascii c in ((128 <=? n) && (n <=? 191))%nat.

Fixpoint chars_from (cur : option string) (s : string) : list string :=
  match s with
  | EmptyString => match cur with Some c => [c] | None => [] end
  | String b r =>
      match cur with
      | Some c =>
          if is_continuation b then chars_from (Some (c +:+ String b EmptyString)) r
          else c :: chars_from (Some (String b EmptyString)) r
      | None => chars_from (Some (String b EmptyString)) r
      end
  end.

Definition string_chars (s : string) : list string := chars_from None s.

(** [len(v)] *)
Definition py_len (v : pyval) : IO Z := fun w =>
  match v with
  | PStr s => (Ok (Z.of_nat (length (string_chars s))), w)
  | PRef l =>
      match heap w !! l with
      | Some (OList xs) => (Ok (Z.of_nat (length xs)), w)
      | Some (ODict kvs) => (Ok (Z.of_nat (length kvs)), w)
      | None => (Raise TypeError, w)
      end
  | _ => (Raise TypeError, w)
  end.

(** The items a [for] loop over [v] visits: the elements of a list, the
    keys of a dict, the characters of a string. *)
Definition py_iter (v : pyval) : IO (list pyval) := fun w =>
  match v with
  | PStr s => (Ok (PStr <$> string_chars s), w)
  | PRef l =>
      match heap w !! l with
      | Some (OList xs) => (Ok xs, w)
      | Some (ODict kvs) => (Ok ((fun kv => PStr kv.1) <$> kvs), w)
      | None => (Raise TypeError, w)
      end
  | _ => (Raise TypeError, w)
  end.

(** [v.append(x)]: only a list has the method. *)
Definition list_append (v x : pyval) : IO unit := fun w =>
  match v with
  | PRef l =>
      match heap w !! l with
      | Some (OList xs) => (Ok tt, set_heap (<[l := OList (xs ++ [x])]> (heap w)) w)
      | _ => (Raise AttributeError, w)
      end
  | _ => (Raise AttributeError, w)
  end.

(** [v.pop(i)] for an index [i] the caller has checked to be in
    [0 <= i < len(v)]; on a dict [pop] looks the integer up as a key,
    which a dict with string keys does not have. *)
Definition list_pop (v : pyval) (i : Z) : IO unit := fun w =>
  match v with
  | PRef l =>
      match heap w !! l with
      | Some (OList xs) => (Ok tt, set_heap (<[l := OList (delete (Z.to_nat i) xs)]> (heap w)) w)
      | Some (ODict _) => (Raise (KeyError (pretty i)), w)
      | None => (Raise AttributeError, w)
      end
  | _ => (Raise AttributeError, w)
  end.

(** [v[i]] for an integer index [0 <= i < len(v)]. *)
Definition getitem_int (v : pyval) (i : Z) : IO pyval := fun w =>
  match v with
  | PStr s =>
      match string_chars s !! Z.to_nat i with
      | Some c => (Ok (PStr c), w)
      | None => (Raise IndexError, w)
      end
  | PRef l =>
      match heap w !! l with
      | Some (OList xs) =>
          match xs !! Z.to_nat i with
          | Some x => (Ok x, w)
          | None => (Raise IndexError, w)
          end
      | Some (ODict _) => (Raise (KeyError (pretty i)), w)
      | None => (Raise TypeError, w)
      end
  | _ => (Raise TypeError, w)
  end.

(** [v[k] = x] for a string key [k]: only a dict accepts it. *)
Definition setitem (v : pyval) (k : string) (x : pyval) : IO unit := fun w =>
  match v with
  | PRef l =>
      match heap w !! l with
      | Some (ODict kvs) => (Ok tt, set_heap (<[l := ODict (assoc_set k x kvs)]> (heap w)) w)
      | _ => (Raise TypeError, w)
      end
  | _ => (Raise TypeError, w)
  end.

(** [str(v)], as an f-string renders a value. *)
Definition py_str `{PyRuntime} (h : gmap loc pyobj) (v : pyval) : string :=
  match v with
  | PNone => "None"
  | PBool true => "True"
  | PBool false => "False"
  | PInt z => pretty z
  | PFloat repr => repr
  | PStr s => s
  | PRef l => py_repr h l
  end.

(** [sep.join(parts)] *)
Fixpoint join (sep : string) (parts : list string) : string :=
  match parts with
  | [] => ""
  | [p] => p
  | p :: rest => p +:+ sep +:+ join sep rest
  end.

(** [s.strip()]: the white space characters of [str.isspace] are
    removed at both ends.  They are U+0009 to U+000D, U+001C to U+0020,
    U+0085, U+00A0, U+1680, U+2000 to U+200A, U+2028, U+2029, U+202F,
    U+205F and U+3000, here by their encodings. *)
Definition py_isspace (c : string) : bool :=
  match nat_of_ascii <$> list_ascii_of_string c with
  | [n] => (((9 <=? n) && (n <=? 13)) || ((28 <=? n) && (n <=? 32)))%nat
  | [194; n] => ((n =? 133) || (n =? 160))%nat
  | [225; 154; 128] => true
  | [226; 128; n] =>
      (((128 <=? n) && (n <=? 138)) || (n =? 168) || (n =? 169) || (n =? 175))%nat
  | [226; 129; 159] => true
  | [227; 128; 128] => true
  | _ => false
  end%nat.

Fixpoint lstrip (cs : list string) : list string :=
  match cs with
  | [] => []
  | c :: rest => if py_isspace c then lstrip rest else cs
  end.

Definition strip (s : string) : string :=
  join "" (reverse (lstrip (reverse (lstrip (string_chars s))))).

(** [int(s)].  The text is first brought to ASCII: a character below
    128 stays, any other white space character becomes a space and any
    other decimal digit its ASCII digit; nothing else is a number.
    What is then read is a decimal literal: an optional sign, digits,
    single underscores between digits, with the white space of C's
    [isspace] (U+0009 to U+000D and the space) around it; a literal
    with more digits than the limit is refused.  [None] stands for the
    [ValueError] that [int] raises. *)
Definition digit_value (c : ascii) : option Z :=
  let n := nat_of_ascii c in
  if ((48 <=? n) && (n <=? 57))%nat then Some (Z.of_nat n - 48) else None.

Fixpoint int_digits (s : string) (acc : Z) (after_digit : bool) : option Z :=
  match s with
  | EmptyString => if after_digit then Some acc else None
  | String c r =>
      if Ascii.eqb c "_"%char then
        if after_digit then int_digits r acc false else None
      else
        match digit_value c with
        | Some d => int_digits r (10 * acc + d) true
        | None => None
        end
  end.

Section int.
Context `{PyRuntime}.

Definition to_ascii_char (c : string) : option string :=
  match c with
  | String b EmptyString =>
      if (nat_of_ascii b <? 128)%nat then Some c else None
  | _ =>
      if py_isspace c then Some " "
      else (fun d => String (ascii_of_nat (48 + Z.to_nat d)) EmptyString)
             <$> unicode_decimal c
  end.

Definition to_ascii (s : string) : option string :=
  join "" <$> mapM to_ascii_char (string_chars s).

Definition c_isspace (c : ascii) : bool :=
  let n := nat_of_ascii c in (((9 <=? n) && (n <=? 13)) || (n =? 32))%nat.

Fixpoint skip_space (s : string) : string :=
  match s with
  | EmptyString => EmptyString
  | String c r => if c_isspace c then skip_space r else s
  end.

Definition count_digits (s : string) : nat :=
  length (filter (fun c => is_Some (digit_value c)) (list_ascii_of_string s)).

Definition over_the_limit (digits : nat) : bool :=
  ((640 <? digits) && (0 <? int_max_str_digits) && (int_max_str_digits <? digits))%nat.

Definition py_int (s : string) : option Z :=
  text ← to_ascii s;
  let literal := String.rev (skip_space (String.rev (skip_space text))) in
  z ← match literal with
      | String "-" r => Z.opp <$> int_digits r 0 false
      | String "+" r => int_digits r 0 false
      | r => int_digits r 0 false
      end;
  if over_the_limit (count_digits literal) then None else Some z.

Definition int_of_input (s : string) : IO Z :=
  match py_int s with
  | Some z => mret z
  | None => mthrow ValueError
  end.

End int.

(** ** Between the heap and JSON trees *)

(** The tree the [json] encoder sees when it walks [v].  It keeps the
    containers it is inside of in [inside] and fails on meeting one of
    them again (``Circular reference detected'', a [ValueError]); the
    depth of a walk that never repeats a container is bounded by the
    size of the heap, which is what [fuel] is set to in [to_json]. *)
Fixpoint to_json_aux (fuel : nat) (h : gmap loc pyobj) (inside : list loc)
    (v : pyval) : option json :=
  match v with
  | PNone => Some JNull
  | PBool b => Some (JBool b)
  | PInt z => Some (JInt z)
  | PFloat repr => Some (JFloat repr)
  | PStr s => Some (JStr s)
  | PRef l =>
      match fuel with
      | O => None
      | S fuel' =>
          if bool_decide (l ∈ inside) then None
          else
            match h !! l with
            | Some (OList xs) =>
                JArr <$> mapM (to_json_aux fuel' h (l :: inside)) xs
            | Some (ODict kvs) =>
                JObj <$> mapM (fun kv => pair kv.1 <$> to_json_aux fuel' h (l :: inside) kv.2) kvs
            | None => None
            end
      end
  end.

Definition to_json (h : gmap loc pyobj) (v : pyval) : option json :=
  to_json_aux (S (size h)) h [] v.

(** The value [json.loads] builds from a tree: fresh containers.  In an
    object with a repeated key the last member wins and keeps the
    position of the first. *)
Fixpoint from_json (j : json) (h : gmap loc pyobj) : pyval * gmap loc pyobj :=
  match j with
  | JNull => (PNone, h)
  | JBool b => (PBool b, h)
  | JInt z => (PInt z, h)
  | JFloat repr => (PFloat repr, h)
  | JStr s => (PStr s, h)
  | JArr items =>
      let '(vs, h1) :=
        (fix go (js : list json) (h : gmap loc pyobj) :=
           match js with
           | [] => ([], h)
           | j :: js' =>
               let '(v, h1) := from_json j h in
               let '(vs, h2) := go js' h1 in
               (v :: vs, h2)
           end) items h in
      let l := fresh (dom h1) in
      (PRef l, <[l := OList vs]> h1)
  | JObj members =>
      let '(kvs, h1) :=
        (fix go (ms : list (string * json)) (acc : list (string * pyval))
             (h : gmap loc pyobj) :=
           match ms with
           | [] => (acc, h)
           | (k, j) :: ms' =>
               let '(v, h1) := from_json j h in
               go ms' (assoc_set k v acc) h1
           end) members [] h in
      let l := fresh (dom h1) in
      (PRef l, <[l := ODict kvs]> h1)
  end.

Definition load_value (j : json) : IO pyval := fun w =>
  let '(v, h) := from_json j (heap w) in (Ok v, set_heap h w).

(** ** Approval configurations *)

(** The value a policy gives an action kind: a plain boolean, or a dict
    with the decisions that are allowed. *)
Inductive interrupt_config :=
| OnBool (b : bool)
| OnDecisions (allowed_decisions : list string).

#[global] Instance interrupt_config_eq_dec : EqDecision interrupt_config.
Proof. solve_decision. Defined.

Module ApprovalLevel.

Definition high_oversight : gmap string interrupt_config :=
  list_to_map [
    ("write_todos", OnBool true);
    ("task", OnBool true);
    ("get_document", OnBool true);
    ("get_document_pages", OnBool true);
    ("write_file", OnBool true);
    ("edit_file", OnBool true)
  ].

Definition moderate_oversight : gmap string interrupt_config :=
  list_to_map [
    ("write_todos", OnBool true);
    ("task", OnBool true);
    ("get_document", OnBool false);
    ("get_document_pages", OnBool false);
    ("write_file", OnBool true);
    ("edit_file", OnDecisions ["approve"; "reject"])
  ].

Definition minimal_oversight : gmap string interrupt_config :=
  list_to_map [
    ("write_todos", OnBool false);
    ("task", OnBool false);
    ("get_document", OnBool false);
    ("get_document_pages", OnBool false);
    ("write_file", OnBool true);
    ("edit_file", OnBool true)
  ].

Definition custom (planning delegation document_access file_operations : bool)
    : gmap string interrupt_config :=
  list_to_map [
    ("write_todos", OnBool planning);
    ("task", OnBool delegation);
    ("get_document", OnBool document_access);
    ("get_document_pages", OnBool document_access);
    ("write_file", OnBool file_operations);
    ("edit_file", OnBool file_operations)
  ].

(** The default arguments of [custom]. *)
Definition custom_default : gmap string interrupt_config :=
  custom true true false true.

End ApprovalLevel.

(** ** Actions, review configurations, decisions *)

Record action_request := ActionRequest {
  name : string;
  args : pyval;
}.

Record review_config := ReviewConfig {
  action_name : string;
  allowed_decisions : option (list string);
}.

Record decision := Decision {
  type : string;
  edited_action : option action_request;
}.

(** The context handed to a reviewer is a dict with string keys. *)
Definition context := list (string * pyval).

Definition approve : decision := Decision "approve" None.
Definition reject : decision := Decision "reject" None.
Definition edit (a : action_request) : decision := Decision "edit" (Some a).

Definition nl : string := String (ascii_of_nat 10) EmptyString.

Fixpoint times (n : nat) (s : string) : string :=
  match n with
  | O => ""
  | S n' => s +:+ times n' s
  end.

Definition str_in (s : string) (l : list string) : bool := bool_decide (s ∈ l).

(** ** Review interfaces *)

Class ReviewInterface := {
  review_action : action_request -> review_config -> option context -> IO decision;
}.


(** [AutoApproveInterface(log_actions)] *)
Definition AutoApproveInterface (log_actions : bool) : ReviewInterface :=
  {| review_action := fun action_request _ _ =>
       (if log_actions
        then print ("[AUTO-APPROVED] " +:+ name action_request)
        else mret tt);;
       mret approve |}.

Module CLIReviewInterface.
Section with_runtime.
Context `{PyRuntime}.

Definition str_of (v : pyval) : IO string :=
  w ← get; mret (py_str (heap w) v).

(** [print(json.dumps(v, indent=2))] *)
Definition print_json (v : pyval) : IO unit :=
  w ← get;
  match to_json (heap w) v with
  | Some j => print (json_dumps_indent2 j)
  | None => mthrow ValueError
  end.

(** The lines [input()] yields until end of input. *)
Fixpoint read_lines (inp : list input_event) : list string * list input_event :=
  match inp with
  | [] => ([], [])
  | Eof :: rest => ([], rest)
  | Line s :: rest => let '(ls, rest') := read_lines rest in (s :: ls, rest')
  end.

Definition input_until_eof : IO (list string) := fun w =>
  let '(ls, rest) := read_lines (stdin w) in (Ok ls, set_stdin rest w).

Definition is_JSONDecodeError (e : exn) : bool :=
  match e with JSONDecodeError => true | _ => false end.

(** The message of the decode error, which the source prints after
    ``Invalid JSON'', is not modelled. *)
Definition _edit_generic (action_request : action_request) : IO decision :=
  print (nl +:+ "Current arguments:");;
  print_json (args action_request);;
  print (nl +:+ "Enter edited arguments as JSON:");;
  print "(Paste JSON and press Ctrl+D when done)";;
  try_except
    (lines ← input_until_eof;
     let edited_json := join nl lines in
     match json_loads edited_json with
     | Some j =>
         edited_args ← load_value j;
         mret (edit (ActionRequest (name action_request) edited_args))
     | None => mthrow (json_loads_error edited_json)
     end)
    is_JSONDecodeError
    (fun _ =>
       print (nl +:+ "❌ Invalid JSON");;
       print "Rejecting action";;
       mret reject).

(** The listing loop of [_edit_todos], numbering from [i]. *)
Fixpoint show_todos (i : Z) (todos : list pyval) : IO unit :=
  match todos with
  | [] => mret tt
  | todo :: rest =>
      task ← getitem todo "task" ≫= str_of;
      print (nl +:+ pretty i +:+ ". Task: " +:+ task);;
      status ← getitem todo "status" ≫= str_of;
      print ("   Status: " +:+ status);;
      priority ← dict_get todo "priority" (PStr "medium") ≫= str_of;
      print ("   Priority: " +:+ priority);;
      show_todos (i + 1) rest
  end.

Definition _edit_todos (action_request : action_request) : IO decision :=
  todos ← getitem (args action_request) "todos";
  print (nl +:+ "Current todos:");;
  items ← py_iter todos;
  show_todos 1 items;;
  print (nl +:+ times 80 "-");;
  print "Edit options:";;
  print "  [1] Add a todo";;
  print "  [2] Remove a todo";;
  print "  [3] Change priority";;
  print "  [4] Manually edit JSON";;
  print "  [5] Cancel editing";;
  choice ← strip <$> input (nl +:+ "Choice: ");
  let finish : IO decision :=
    edited_args ← new_dict [("todos", todos)];
    mret (edit (ActionRequest "write_todos" edited_args)) in
  if String.eqb choice "1" then
    task ← input "New task description: ";
    priority ← strip <$> input "Priority (low/medium/high/critical): ";
    let priority := if String.eqb priority "" then "medium" else priority in
    todo ← new_dict [("task", PStr task); ("status", PStr "pending");
                     ("priority", PStr priority)];
    list_append todos todo;;
    finish
  else if String.eqb choice "2" then
    num ← input "Remove todo number: " ≫= int_of_input;
    (if (1 <=? num)%Z then
       n ← py_len todos;
       if (num <=? n)%Z then list_pop todos (num - 1) else mret tt
     else mret tt);;
    finish
  else if String.eqb choice "3" then
    num ← input "Change priority for todo number: " ≫= int_of_input;
    (if (1 <=? num)%Z then
       n ← py_len todos;
       if (num <=? n)%Z then
         priority ← input "New priority (low/medium/high/critical): ";
         todo ← getitem_int todos (num - 1);
         setitem todo "priority" (PStr priority)
       else mret tt
     else mret tt);;
    finish
  else if String.eqb choice "4" then
    _edit_generic action_request
  else if String.eqb choice "5" then
    print "❌ Editing cancelled, rejecting action";;
    mret reject
  else
    finish.

Definition _edit_task (action_request : action_request) : IO decision :=
  print (nl +:+ "Current delegation:");;
  subagent ← getitem (args action_request) "name" ≫= str_of;
  print ("  Subagent: " +:+ subagent);;
  task ← getitem (args action_request) "task" ≫= str_of;
  print ("  Task: " +:+ task);;
  print (nl +:+ times 80 "-");;
  print "What would you like to edit?";;
  print "  [1] Add context to task description";;
  print "  [2] Change subagent";;
  print "  [3] Manually edit JSON";;
  print "  [4] Cancel editing";;
  choice ← strip <$> input (nl +:+ "Choice: ");
  if String.eqb choice "1" then
    additional_context ← input (nl +:+ "Enter additional context to add:" +:+ nl);
    current_task ← getitem (args action_request) "task" ≫= str_of;
    let new_task :=
      current_task +:+ nl +:+ nl +:+ "ADDITIONAL CONTEXT:" +:+ nl +:+ additional_context in
    subagent ← getitem (args action_request) "name";
    edited_args ← new_dict [("name", subagent); ("task", PStr new_task)];
    mret (edit (ActionRequest "task" edited_args))
  else if String.eqb choice "2" then
    print (nl +:+ "Available subagents:");;
    print "  - legal-analyzer";;
    print "  - report-creator";;
    print "  - dashboard-creator";;
    print "  - general-purpose";;
    new_subagent ← strip <$> input (nl +:+ "New subagent: ");
    task ← getitem (args action_request) "task";
    edited_args ← new_dict [("name", PStr new_subagent); ("task", task)];
    mret (edit (ActionRequest "task" edited_args))
  else if String.eqb choice "3" then
    _edit_generic action_request
  else
    print "❌ Editing cancelled, rejecting action";;
    mret reject.

(** [v[:n]]: the first [n] characters of a string, a fresh list with
    a prefix of a list; a dict cannot be sliced. *)
Definition slice_to (n : nat) (v : pyval) : IO pyval := fun w =>
  match v with
  | PStr s => (Ok (PStr (join "" (take n (string_chars s)))), w)
  | PRef l =>
      match heap w !! l with
      | Some (OList xs) => new_list (take n xs) w
      | _ => (Raise TypeError, w)
      end
  | _ => (Raise TypeError, w)
  end.

Definition temp_file : string := "/tmp/edit_content.txt".

(** [os.system(f"{editor} {temp_file}")]: the editor session rewrites
    the file. *)
Definition os_system_editor (path : string) : IO unit :=
  modify (fun w => set_files (alter (run_editor w) path (files w)) w).

Definition _edit_file (action_request : action_request) : IO decision :=
  print (nl +:+ "Current file write:");;
  path ← (getitem (args action_request) "file_path" ≫= str_of);
  print ("  Path: " +:+ path);;
  len ← (getitem (args action_request) "content" ≫= py_len);
  print ("  Content length: " +:+ pretty len +:+ " characters");;
  print (nl +:+ "First 500 characters:");;
  print (times 80 "-");;
  content ← getitem (args action_request) "content";
  head ← slice_to 500 content;
  head ← str_of head;
  print head;;
  len ← (getitem (args action_request) "content" ≫= py_len);
  (if (500 <? len)%Z then print (nl +:+ "... (truncated)") else mret tt);;
  print (times 80 "-");;
  print (nl +:+ times 80 "-");;
  print "Edit options:";;
  print "  [1] Change file path";;
  print "  [2] Edit content in text editor";;
  print "  [3] Manually edit JSON";;
  print "  [4] Cancel editing";;
  choice ← strip <$> input (nl +:+ "Choice: ");
  if String.eqb choice "1" then
    new_path ← strip <$> input "New file path: ";
    content ← getitem (args action_request) "content";
    edited_args ← new_dict [("file_path", PStr new_path); ("content", content)];
    mret (edit (ActionRequest "write_file" edited_args))
  else if String.eqb choice "2" then
    write_file temp_file "";;
    content ← getitem (args action_request) "content";
    match content with
    | PStr s => write_file temp_file s
    | _ => mthrow TypeError
    end;;
    os_system_editor temp_file;;
    edited_content ← read_file temp_file;
    file_path ← getitem (args action_request) "file_path";
    edited_args ← new_dict [("file_path", file_path); ("content", PStr edited_content)];
    mret (edit (ActionRequest "write_file" edited_args))
  else if String.eqb choice "3" then
    _edit_generic action_request
  else
    print "❌ Editing cancelled, rejecting action";;
    mret reject.

Definition _handle_edit (action_request : action_request) : IO decision :=
  print (nl +:+ times 80 "=");;
  print "✏️  EDIT MODE";;
  print (times 80 "=");;
  let tool_name := name action_request in
  if String.eqb tool_name "write_todos" then _edit_todos action_request
  else if String.eqb tool_name "task" then _edit_task action_request
  else if String.eqb tool_name "write_file" then _edit_file action_request
  else _edit_generic action_request.

(** One round of the [while True] loop of [review_action]; [again] is
    the next round. *)
Definition ask (action_request : action_request) (allowed options : list string)
    (again : IO decision) : IO decision :=
  choice ← strip <$> input (nl +:+ "Your decision (" +:+ join "/" options +:+ "): ");
  if String.eqb choice "1" && str_in "approve" allowed then
    print (nl +:+ "✅ Action approved");;
    mret approve
  else if String.eqb choice "2" && str_in "edit" allowed then
    _handle_edit action_request
  else if String.eqb choice "3" && str_in "reject" allowed then
    print (nl +:+ "❌ Action rejected");;
    mret reject
  else
    print ("❌ Invalid choice. Please enter one of: " +:+ join ", " options);;
    again.

(** The loop itself.  Every round reads one line, so the rounds are
    counted by the input that is left: on [inp], the terminal input at
    the time the loop is entered.  When none is left [input] raises
    and the round after it is never reached. *)
Fixpoint ask_loop (action_request : action_request) (allowed options : list string)
    (inp : list input_event) : IO decision :=
  match inp with
  | [] => ask action_request allowed options (mthrow EOFError)
  | _ :: rest =>
      ask action_request allowed options (ask_loop action_request allowed options rest)
  end.

Definition show_context (context : option context) : IO unit :=
  match context with
  | None | Some [] => mret tt
  | Some context =>
      print (nl +:+ "📍 Context:");;
      match assoc "stage" context with
      | Some stage =>
          stage ← str_of stage;
          print ("   Analysis Stage: " +:+ stage)
      | None => mret tt
      end;;
      match assoc "documents_accessed" context with
      | Some docs =>
          n ← py_len docs;
          print ("   Documents Accessed: " +:+ pretty n)
      | None => mret tt
      end
  end.

Definition review_action (action_request : action_request)
    (review_config : review_config) (context : option context) : IO decision :=
  print (nl +:+ times 80 "=");;
  print "🔍 HUMAN REVIEW REQUIRED";;
  print (times 80 "=");;
  print (nl +:+ "📋 Tool: " +:+ name action_request);;
  show_context context;;
  print (nl +:+ "📝 Proposed Action:");;
  print_json (args action_request);;
  let allowed :=
    default ["approve"; "edit"; "reject"] (allowed_decisions review_config) in
  print (nl +:+ "✅ Allowed Decisions: " +:+ join ", " allowed);;
  print (nl +:+ times 80 "-");;
  print "Options:";;
  let options : list string := [] in
  options ← (if str_in "approve" allowed
             then print "  [1] ✅ APPROVE - Execute as proposed";;
                  mret (options ++ ["1"])%list
             else mret options);
  options ← (if str_in "edit" allowed
             then print "  [2] ✏️  EDIT - Modify before execution";;
                  mret (options ++ ["2"])%list
             else mret options);
  options ← (if str_in "reject" allowed
             then print "  [3] ❌ REJECT - Skip this action";;
                  mret (options ++ ["3"])%list
             else mret options);
  w ← get;
  ask_loop action_request allowed options (stdin w).

End with_runtime.
End CLIReviewInterface.

(** [CLIReviewInterface()] *)
Definition CLIReviewInterface `{PyRuntime} : ReviewInterface :=
  {| review_action := CLIReviewInterface.review_action |}.

(** ** Audit logging *)

(** A hashable JSON scalar used as a dict key; [True] and [1] are the
    same key, as are [False] and [0], and a float that equals an
    integer is the key of that integer. *)
Inductive pykey :=
| KNone
| KInt (z : Z)
| KFloat (repr : string)
| KStr (s : string).

#[global] Instance pykey_eq_dec : EqDecision pykey.
Proof. solve_decision. Defined.

#[global] Instance pykey_countable : Countable pykey.
Proof.
  refine (inj_countable'
    (fun k => match k with
              | KNone => inl tt
              | KInt z => inr (inl z)
              | KFloat r => inr (inr (inl r))
              | KStr s => inr (inr (inr s))
              end)
    (fun x => match x with
              | inl _ => KNone
              | inr (inl z) => KInt z
              | inr (inr (inl r)) => KFloat r
              | inr (inr (inr s)) => KStr s
              end) _).
  intros []; reflexivity.
Defined.

Record review_stats := ReviewStats {
  total_reviews : Z;
  by_decision : gmap pykey Z;
  by_tool : gmap pykey Z;
  by_reviewer : gmap pykey Z;
}.

(** [sum(d.values())] *)
Definition sum_values (d : gmap pykey Z) : Z :=
  map_fold (fun _ v acc => v + acc) 0 d.

(** The lines a text file yields when it is iterated: each keeps its
    line end, and the line ends CR and CR LF read as LF. *)

Fixpoint file_lines (cur : string) (s : string) : list string :=
  match s with
  | EmptyString => if String.eqb cur "" then [] else [cur]
  | String c r =>
      if Ascii.eqb c LF then (cur +:+ nl) :: file_lines "" r
      else if Ascii.eqb c CR then
        match r with
        | String c' r' =>
            if Ascii.eqb c' LF then (cur +:+ nl) :: file_lines "" r'
            else (cur +:+ nl) :: file_lines "" r
        | EmptyString => [cur +:+ nl]
        end
      else file_lines (cur +:+ String c EmptyString) r
  end.

Module AuditLogger.
Section with_runtime.
Context `{PyRuntime}.

(** [AuditLogger(log_file)] *)
Record t := Make { log_file : string }.

Definition default_log_file : string := "review_audit.jsonl".

Definition context_json (h : gmap loc pyobj) (context : option context)
    : option json :=
  match context with
  | None => Some JNull
  | Some kvs => JObj <$> mapM (fun kv => pair kv.1 <$> to_json h kv.2) kvs
  end.

(** The tree of [log_entry] as [json.dumps] walks it; [None] when a
    value in it refers to itself. *)
Definition log_entry (h : gmap loc pyobj) (timestamp thread_id reviewer : string)
    (action_request : action_request) (decision : decision)
    (context : option context) : option json :=
  action_args ← to_json h (args action_request);
  edited_args ← match edited_action decision with
                | Some e => to_json h (args e)
                | None => Some JNull
                end;
  context ← context_json h context;
  Some (JObj [
    ("timestamp", JStr timestamp);
    ("thread_id", JStr thread_id);
    ("reviewer", JStr reviewer);
    ("action_tool", JStr (name action_request));
    ("action_args", action_args);
    ("decision_type", JStr (type decision));
    ("edited_args", edited_args);
    ("context", context)
  ]).

Definition log_review (self : t) (action_request : action_request)
    (decision : decision) (reviewer thread_id : string)
    (context : option context) : IO unit :=
  timestamp ← datetime_now;
  append_file (log_file self) "";;
  w ← get;
  match log_entry (heap w) timestamp thread_id reviewer action_request decision context with
  | Some entry => append_file (log_file self) (json_dumps entry +:+ nl)
  | None => mthrow ValueError
  end.

(** [{"approve": 0, "edit": 0, "reject": 0}] *)
Definition by_decision_start : gmap pykey Z :=
  list_to_map [(KStr "approve", 0); (KStr "edit", 0); (KStr "reject", 0)].

Definition stats0 : review_stats := ReviewStats 0 by_decision_start ∅ ∅.

(** [entry[k]] for the value [json.loads] returned: an object keeps
    the last member of a repeated key. *)
Definition entry_field (entry : json) (k : string) : IO json :=
  match entry with
  | JObj members =>
      match assoc k (reverse members) with
      | Some v => mret v
      | None => mthrow (KeyError k)
      end
  | _ => mthrow TypeError
  end.

Definition as_key (j : json) : IO pykey :=
  match j with
  | JNull => mret KNone
  | JBool b => mret (KInt (if b then 1 else 0))
  | JInt z => mret (KInt z)
  | JFloat r => mret (match float_integer r with Some z => KInt z | None => KFloat r end)
  | JStr s => mret (KStr s)
  | JArr _ | JObj _ => mthrow TypeError
  end.

(** [d[k] = d.get(k, 0) + 1] *)
Definition count (k : pykey) (d : gmap pykey Z) : gmap pykey Z :=
  <[k := default 0 (d !! k) + 1]> d.

(** The body of the loop over the lines of the log. *)
Definition count_line (stats : review_stats) (line : string) : IO review_stats :=
  match json_loads line with
  | None => mthrow (json_loads_error line)
  | Some entry =>
      let total := total_reviews stats + 1 in
      decision ← entry_field entry "decision_type";
      decision ← as_key decision;
      let by_decision := count decision (by_decision stats) in
      tool ← entry_field entry "action_tool";
      tool ← as_key tool;
      let by_tool := count tool (by_tool stats) in
      reviewer ← entry_field entry "reviewer";
      reviewer ← as_key reviewer;
      let by_reviewer := count reviewer (by_reviewer stats) in
      mret (ReviewStats total by_decision by_tool by_reviewer)
  end.

Fixpoint count_lines (stats : review_stats) (lines : list string) : IO review_stats :=
  match lines with
  | [] => mret stats
  | line :: rest => stats ← count_line stats line; count_lines stats rest
  end.

(** [None] is the empty dict returned when the log does not exist. *)
Definition get_review_stats (self : t) : IO (option review_stats) :=
  w ← get;
  match files w !! log_file self with
  | None => mret None
  | Some content => Some <$> count_lines stats0 (file_lines "" content)
  end.

End with_runtime.
End AuditLogger.

(** ** The agent and the control loop *)

(** What [agent.invoke] is called with: the first call carries the
    user's message, a resumed call the decisions of the batch. *)
Inductive agent_input :=
| Messages (user_message : string)
| CommandResume (decisions : list decision).

(** [{"configurable": {"thread_id": thread_id}}] *)
Record run_config := RunConfig { thread_id : string }.

Record interrupt_value := InterruptValue {
  action_requests : list action_request;
  review_configs : list review_config;
}.

Record interrupt := Interrupt { value : interrupt_value }.

Record agent_result := AgentResult {
  messages : list (string * string);
  __interrupt__ : option (list interrupt);
}.

Record agent_call := AgentCall {
  call_input : agent_input;
  call_config : run_config;
}.

(** The agent is opaque and stateful: what a call returns may depend on
    the calls made before it, and the call may change the world (it
    builds the action requests it returns). *)
Definition agent := list agent_call -> agent_call -> world -> agent_result * world.

(** The state of a run: the calls the agent has received so far, each
    with the result it gave, and the world. *)
Record session := Session {
  calls : list (agent_call * agent_result);
  the_world : world;
}.

Abbreviation Run := (M session).

Definition lift {A} (m : IO A) : Run A := fun st =>
  let '(o, w') := m (the_world st) in (o, Session (calls st) w').

(** [agent.invoke(input, config=config)] *)
Definition invoke (a : agent) (input : agent_input) (config : run_config)
    : Run agent_result := fun st =>
  let call := AgentCall input config in
  let '(r, w') := a (calls st).*1 call (the_world st) in
  (Ok r, Session (calls st ++ [(call, r)]) w').

(** The dict [create_agent_with_hitl] returns. *)
Record agent_config := AgentConfig {
  the_agent : agent;
  approval_level : gmap string interrupt_config;
  review_interface : ReviewInterface;
  reviewer_name : string;
  audit_logger : option AuditLogger.t;
}.

Section control_loop.
Context `{PyRuntime}.

(** [result.get("__interrupt__")] when it is truthy, read as
    [result["__interrupt__"][0].value]. *)
Definition pending (result : agent_result) : option interrupt_value :=
  match __interrupt__ result with
  | Some (i :: _) => Some (value i)
  | _ => None
  end.

(** [{cfg["action_name"]: cfg for cfg in review_configs}] *)
Definition config_map (review_configs : list review_config)
    : gmap string review_config :=
  foldl (fun m cfg => <[action_name cfg := cfg]> m) ∅ review_configs.

Definition review_context (iteration : Z) (thread_id : string) : context :=
  [("stage", PStr ("iteration " +:+ pretty iteration));
   ("thread_id", PStr thread_id)].

(** The [for action in action_requests] loop; [decisions] is the list
    built so far. *)
Fixpoint collect_decisions (cfg : agent_config) (thread_id : string)
    (iteration : Z) (config_map : gmap string review_config)
    (action_requests : list action_request) (decisions : list decision)
    : IO (list decision) :=
  match action_requests with
  | [] => mret decisions
  | action :: rest =>
      review_config ← match config_map !! name action with
                      | Some c => mret c
                      | None => mthrow (KeyError (name action))
                      end;
      let context := review_context iteration thread_id in
      decision ← @review_action (review_interface cfg) action review_config (Some context);
      let decisions := (decisions ++ [decision])%list in
      match audit_logger cfg with
      | Some logger =>
          AuditLogger.log_review logger action decision (reviewer_name cfg)
            thread_id (Some context)
      | None => mret tt
      end;;
      collect_decisions cfg thread_id iteration config_map rest decisions
  end.

(** One pass of the [while] body for the batch [interrupts]. *)
Definition handle_interrupt (cfg : agent_config) (thread_id : string)
    (max_iterations iteration : Z) (interrupts : interrupt_value) : Run agent_result :=
  lift (print (nl +:+ times 80 "="));;
  lift (print ("Interrupt " +:+ pretty iteration +:+ "/" +:+ pretty max_iterations));;
  lift (print (times 80 "="));;
  let config_map := config_map (review_configs interrupts) in
  decisions ← lift (collect_decisions cfg thread_id iteration config_map
                      (action_requests interrupts) []);
  invoke (the_agent cfg) (CommandResume decisions) (RunConfig thread_id).

(** [while result.get("__interrupt__") and iteration < max_iterations].
    [fuel] bounds the number of passes; [Z.to_nat (max_iterations -
    iteration)] passes are all the loop can make. *)
Fixpoint hitl_loop (fuel : nat) (cfg : agent_config) (thread_id : string)
    (max_iterations iteration : Z) (result : agent_result)
    : Run (Z * agent_result) :=
  match pending result with
  | Some interrupts =>
      if (iteration <? max_iterations)%Z then
        match fuel with
        | O => mret (iteration, result)
        | S fuel' =>
            let iteration := iteration + 1 in
            result ← handle_interrupt cfg thread_id max_iterations iteration interrupts;
            hitl_loop fuel' cfg thread_id max_iterations iteration result
        end
      else mret (iteration, result)
  | None => mret (iteration, result)
  end.

Definition warning (max_iterations : Z) : string :=
  nl +:+ "⚠️  Warning: Reached maximum iterations (" +:+ pretty max_iterations +:+ ")".

Definition run_agent_with_hitl (cfg : agent_config) (user_message thread_id : string)
    (max_iterations : Z) : Run agent_result :=
  let config := RunConfig thread_id in
  result ← invoke (the_agent cfg) (Messages user_message) config;
  let iteration := 0 in
  '(iteration, result) ← hitl_loop (Z.to_nat max_iterations) cfg thread_id
                           max_iterations iteration result;
  (if (max_iterations <=? iteration)%Z
   then lift (print (warning max_iterations))
   else mret tt);;
  mret result.

Definition default_max_iterations : Z := 50.

End control_loop.

(** ** The data room

    [DataRoom] of [legal_risk_analysis_agent.py], which the agent's
    document tools read.  The index is the structure the class
    documents: documents with an id, a summary and pages; pages with a
    number, a summary and an image. *)
Module DataRoom.

Record page := Page {
  page_num : Z;
  page_summdesc : string;
  page_image : string;
}.

Record document := Document {
  doc_id : string;
  summdesc : string;
  pages : list page;
}.

(** [DataRoom(data_room_index)]; [documents] is
    [data_room_index["documents"]]. *)
Record t := Make { documents : list document }.

(** An entry of the simplified index. *)
Record index_entry := IndexEntry {
  entry_doc_id : string;
  entry_summdesc : string;
}.

Definition get_document_index (self : t) : list index_entry :=
  (fun doc => IndexEntry (doc_id doc) (summdesc doc)) <$> documents self.

(** The [for doc in ...] loop of [get_document]. *)
Fixpoint find_document (docs : list document) (id : string) : option document :=
  match docs with
  | [] => None
  | doc :: rest => if String.eqb (doc_id doc) id then Some doc else find_document rest id
  end.

Definition get_document (self : t) (id : string) : option document :=
  find_document (documents self) id.

Definition get_document_pages_summary (self : t) (id : string) : string :=
  match get_document self id with
  | None => "Error: Document " +:+ id +:+ " not found"
  | Some doc =>
      let page_summaries :=
        (fun page => "Page " +:+ pretty (page_num page) +:+ ": " +:+ page_summdesc page)
          <$> pages doc in
      join (nl +:+ nl) page_summaries
  end.





End DataRoom.

(** ** Building the configuration of a run *)

(** [create_agent_with_hitl].  The agent itself comes from
    [create_legal_risk_analysis_agent], which builds it with the
    [deepagents] library from the data room index alone. *)
Definition create_agent_with_hitl
    (create_legal_risk_analysis_agent : DataRoom.t -> agent)
    (data_room_index : DataRoom.t)
    (approval_level : gmap string interrupt_config)
    (review_interface : ReviewInterface)
    (reviewer_name : string) (enable_audit : bool) : agent_config :=
  let agent := create_legal_risk_analysis_agent data_room_index in
  let audit_logger :=
    if enable_audit then Some (AuditLogger.Make AuditLogger.default_log_file)
    else None in
  AgentConfig agent approval_level review_interface reviewer_name audit_logger.

(** ** The backend's reader of the audit log

    [get_audit_logs] of [backend/app.py] reads the file [log_review]
    writes. *)
Module Backend.
Section with_runtime.
Context `{PyRuntime}.

Inductive ApprovalLevelEnum := HIGH | MODERATE | MINIMAL.

Definition get_approval_level_config (level : ApprovalLevelEnum)
    : gmap string interrupt_config :=
  match level with
  | HIGH => ApprovalLevel.high_oversight
  | MODERATE => ApprovalLevel.moderate_oversight
  | _ => ApprovalLevel.minimal_oversight
  end.

(** [{"logs": ..., "total": ...}] *)
Record audit_logs := AuditLogs {
  logs : list json;
  total : Z;
}.

(** The [for line in f] loop; [logs] is the list built so far. *)
Fixpoint read_logs (lines : list string) (logs : list json) : IO (list json) :=
  match lines with
  | [] => mret logs
  | line :: rest =>
      logs ← (if negb (String.eqb (strip line) "") then
                match json_loads line with
                | Some entry => mret (logs ++ [entry])%list
                | None => mthrow (json_loads_error line)
                end
              else mret logs);
      read_logs rest logs
  end.

(** [l[-n:]] for [n > 0] *)
Definition last_n {A} (n : nat) (l : list A) : list A :=
  drop (length l - n) l.

Definition get_audit_logs (audit_file : string) : IO audit_logs :=
  w ← get;
  match files w !! audit_file with
  | None => mret (AuditLogs [] 0)
  | Some content =>
      logs ← read_logs (file_lines "" content) [];
      mret (AuditLogs (last_n 100 logs) (Z.of_nat (length logs)))
  end.

End with_runtime.
End Backend.

(** ** A runtime to run the model on concrete inputs

    A stand-in for the Python runtime on the inputs of the concrete
    runs below.  [dumps] is [json.dumps] with its default
    [ensure_ascii]; [loads] is [json.loads]: it reads integers, up to
    the digit limit of [int], floats and the three constants that are
    not numbers of JSON, and stops with the error [json.loads] raises.
    The decimal digits are those of Unicode 14.0.  It is not the
    whole of Python: a float of more than 15 significant digits, or
    beyond the range of the normal floats and not plainly infinite or
    zero, is carried by a numeral of its literal where Python has the
    [repr] of the nearest float; an escape for half of a surrogate
    pair is not read; and [repr] quotes a string as it is. *)
Module MiniRuntime.

Definition dquote : string := String (ascii_of_nat 34) EmptyString.

Definition hex_digit (n : Z) : ascii :=
  ascii_of_nat (Z.to_nat (if (n <? 10)%Z then 48 + n else 87 + n)).

Definition hex4 (n : Z) : string :=
  String (hex_digit (n / 4096 mod 16)) (String (hex_digit (n / 256 mod 16))
    (String (hex_digit (n / 16 mod 16)) (String (hex_digit (n mod 16)) EmptyString))).

(** The code point a character encodes. *)
Definition code_point (c : string) : Z :=
  match (fun b => Z.of_nat (nat_of_ascii b)) <$> list_ascii_of_string c with
  | [a] => a
  | [a; b] => (a - 192) * 64 + (b - 128)
  | [a; b; c] => (a - 224) * 4096 + (b - 128) * 64 + (c - 128)
  | [a; b; c; d] => (a - 240) * 262144 + (b - 128) * 4096 + (c - 128) * 64 + (d - 128)
  | _ => 0
  end.

(** A character inside a string literal, with [ensure_ascii]: what is
    not between the space and the tilde is escaped, a character
    beyond U+FFFF as a surrogate pair. *)
Definition escape_char (c : string) : string :=
  let n := code_point c in
  if (n =? 34)%Z then "\" +:+ dquote
  else if (n =? 92)%Z then "\\"
  else if (n =? 10)%Z then "\n"
  else if (n =? 13)%Z then "\r"
  else if (n =? 9)%Z then "\t"
  else if (n =? 8)%Z then "\b"
  else if (n =? 12)%Z then "\f"
  else if ((32 <=? n) && (n <=? 126))%Z then c
  else if (n <? 65536)%Z then "\u" +:+ hex4 n
  else "\u" +:+ hex4 (55296 + (n - 65536) / 1024)
       +:+ "\u" +:+ hex4 (56320 + (n - 65536) mod 1024).

Definition escape (s : string) : string :=
  join "" (escape_char <$> string_chars s).

Definition quote (s : string) : string := dquote +:+ escape s +:+ dquote.

(** A float in JSON text: its [repr], but for the three that are not
    numbers of JSON. *)
Definition float_text (r : string) : string :=
  if String.eqb r "nan" then "NaN"
  else if String.eqb r "inf" then "Infinity"
  else if String.eqb r "-inf" then "-Infinity"
  else r.

Fixpoint dumps (j : json) : string :=
  match j with
  | JNull => "null"
  | JBool true => "true"
  | JBool false => "false"
  | JInt z => pretty z
  | JFloat r => float_text r
  | JStr s => quote s
  | JArr items => "[" +:+ join ", " (map dumps items) +:+ "]"
  | JObj members =>
      "{" +:+ join ", " (map (fun kv => quote kv.1 +:+ ": " +:+ dumps kv.2) members) +:+ "}"
  end.

Fixpoint dumps_indent (step level : nat) (j : json) : string :=
  let pad := nl +:+ times (step * S level) " " in
  let close := nl +:+ times (step * level) " " in
  match j with
  | JArr [] => "[]"
  | JObj [] => "{}"
  | JArr items =>
      "[" +:+ pad +:+ join ("," +:+ pad) (map (dumps_indent step (S level)) items)
      +:+ close +:+ "]"
  | JObj members =>
      "{" +:+ pad
      +:+ join ("," +:+ pad)
            (map (fun kv => quote kv.1 +:+ ": " +:+ dumps_indent step (S level) kv.2) members)
      +:+ close +:+ "}"
  | _ => dumps j
  end.

Definition is_json_ws (c : ascii) : bool :=
  let n := nat_of_ascii c in
  ((n =? 32) || (n =? 9) || (n =? 10) || (n =? 13))%nat.

Fixpoint skip_ws (s : string) : string :=
  match s with
  | String c r => if is_json_ws c then skip_ws r else s
  | EmptyString => EmptyString
  end.

(** What reading a text gives: a value, or the error [json.loads]
    raises. *)
Inductive reading (A : Type) :=
| Got (a : A)
| Stopped (e : exn).
Arguments Got {A} a.
Arguments Stopped {A} e.

#[local] Instance reading_bind : MBind reading := fun A B f m =>
  match m with
  | Got a => f a
  | Stopped e => Stopped e
  end.

#[local] Instance reading_fmap : FMap reading := fun A B f m =>
  match m with
  | Got a => Got (f a)
  | Stopped e => Stopped e
  end.

Definition malformed {A} : reading A := Stopped JSONDecodeError.

Fixpoint expect (word s : string) : reading string :=
  match word, s with
  | EmptyString, _ => Got s
  | String a word', String b s' => if Ascii.eqb a b then expect word' s' else malformed
  | _, EmptyString => malformed
  end.

Definition hex_value (c : ascii) : option Z :=
  let n := Z.of_nat (nat_of_ascii c) in
  if ((48 <=? n) && (n <=? 57))%Z then Some (n - 48)
  else if ((97 <=? n) && (n <=? 102))%Z then Some (n - 87)
  else if ((65 <=? n) && (n <=? 70))%Z then Some (n - 55)
  else None.

(** The four hex digits of a [\u] escape. *)
Definition hex4_value (s : string) : option (Z * string) :=
  match s with
  | String a (String b (String c (String d r))) =>
      match hex_value a, hex_value b, hex_value c, hex_value d with
      | Some x3, Some x2, Some x1, Some x0 =>
          Some (4096 * x3 + 256 * x2 + 16 * x1 + x0, r)
      | _, _, _, _ => None
      end
  | _ => None
  end.

(** The encoding of a code point. *)
Definition utf8 (n : Z) : string :=
  let byte (k : Z) := ascii_of_nat (Z.to_nat k) in
  if (n <? 128)%Z then String (byte n) EmptyString
  else if (n <? 2048)%Z then
    String (byte (192 + n / 64)) (String (byte (128 + n mod 64)) EmptyString)
  else if (n <? 65536)%Z then
    String (byte (224 + n / 4096)) (String (byte (128 + n / 64 mod 64))
      (String (byte (128 + n mod 64)) EmptyString))
  else
    String (byte (240 + n / 262144)) (String (byte (128 + n / 4096 mod 64))
      (String (byte (128 + n / 64 mod 64)) (String (byte (128 + n mod 64)) EmptyString))).

Definition is_high_surrogate (n : Z) : bool := ((55296 <=? n) && (n <=? 56319))%Z.
Definition is_low_surrogate (n : Z) : bool := ((56320 <=? n) && (n <=? 57343))%Z.

(** The rest of a string literal after its opening quote; [acc] holds
    the bytes read so far, last first. *)
Fixpoint parse_string (s : string) (acc : string) : reading (string * string) :=
  match s with
  | EmptyString => malformed
  | String c r =>
      let n := nat_of_ascii c in
      if (n =? 34)%nat then Got (String.rev acc, r)
      else if (n <? 32)%nat then malformed
      else if (n =? 92)%nat then
        match r with
        | String e r' =>
            let simple (x : nat) := parse_string r' (String (ascii_of_nat x) acc) in
            match nat_of_ascii e with
            | 34%nat => simple 34%nat
            | 92%nat => simple 92%nat
            | 47%nat => simple 47%nat
            | 98%nat => simple 8%nat
            | 102%nat => simple 12%nat
            | 110%nat => simple 10%nat
            | 114%nat => simple 13%nat
            | 116%nat => simple 9%nat
            | 117%nat =>
                match r' with
                | String a (String b (String c1 (String d r''))) =>
                    match hex4_value r' with
                    | Some (x, _) =>
                        if is_high_surrogate x then
                          match r'' with
                          | String b1 (String b2 (String a' (String b' (String c' (String d' r3))))) =>
                              match hex4_value (String a' (String b' (String c' (String d' r3)))) with
                              | Some (y, _) =>
                                  if (nat_of_ascii b1 =? 92)%nat && (nat_of_ascii b2 =? 117)%nat
                                     && is_low_surrogate y
                                  then parse_string r3
                                         (String.rev (utf8 (65536 + (x - 55296) * 1024 + (y - 56320)))
                                          +:+ acc)
                                  else malformed
                              | None => malformed
                              end
                          | _ => malformed
                          end
                        else if is_low_surrogate x then malformed
                        else parse_string r'' (String.rev (utf8 x) +:+ acc)
                    | None => malformed
                    end
                | _ => malformed
                end
            | _ => malformed
            end
        | EmptyString => malformed
        end
      else parse_string r (String c acc)
  end.

(** The digits a text starts with, and the text after them. *)
Fixpoint span_digits (s : string) : string * string :=
  match s with
  | String c r =>
      match digit_value c with
      | Some _ => let '(d, rest) := span_digits r in (String c d, rest)
      | None => (EmptyString, s)
      end
  | EmptyString => (EmptyString, EmptyString)
  end.

Fixpoint digits_value (s : string) (acc : Z) : Z :=
  match s with
  | String c r =>
      match digit_value c with
      | Some d => digits_value r (10 * acc + d)
      | None => acc
      end
  | EmptyString => acc
  end.

(** The parts of a number: a lone [0] or digits that start with
    [1-9]; a point with digits after it; [e] or [E], a sign or none,
    and digits. *)
Definition integer_part (s : string) : option (string * string) :=
  match s with
  | String c r =>
      match digit_value c with
      | Some d => if (d =? 0)%Z then Some ("0", r) else Some (span_digits s)
      | None => None
      end
  | EmptyString => None
  end.

Definition fraction_part (s : string) : option (string * string) :=
  match s with
  | String "." r =>
      match span_digits r with
      | (EmptyString, _) => None
      | (d, rest) => Some (d, rest)
      end
  | _ => None
  end.

Definition exponent_part (s : string) : option (Z * string) :=
  match s with
  | String c r =>
      if Ascii.eqb c "e" || Ascii.eqb c "E" then
        let '(negative, r1) := match r with
                               | String "+" r1 => (false, r1)
                               | String "-" r1 => (true, r1)
                               | _ => (false, r)
                               end in
        match span_digits r1 with
        | (EmptyString, _) => None
        | (d, rest) => Some (if negative then - digits_value d 0 else digits_value d 0, rest)
        end
      else None
  | EmptyString => None
  end.

Fixpoint drop_zeros (s : string) : string :=
  match s with
  | String "0" r => drop_zeros r
  | _ => s
  end.

(** [repr] of the float nearest to the number with the given digits
    before and after the point, times ten to the power [e].  With
    [sig] the digits from the first to the last that is not zero, the
    number is [0.sig] times ten to the power [decpt]. *)
Definition float_repr (negative : bool) (whole frac : string) (e : Z) : string :=
  let all := whole +:+ frac in
  let lead := drop_zeros all in
  let sig := String.rev (drop_zeros (String.rev lead)) in
  let n := String.length sig in
  let decpt := Z.of_nat (String.length whole) + e
               - Z.of_nat (String.length all - String.length lead) in
  let sign := if negative then "-" else "" in
  match sig with
  | EmptyString => sign +:+ "0.0"
  | String d rest =>
      if (309 <? decpt)%Z then sign +:+ "inf"
      else if (decpt <? -323)%Z then sign +:+ "0.0"
      else if (15 <? n)%nat || (308 <? decpt)%Z || (decpt <? -306)%Z then
        sign +:+ whole
        +:+ (match frac with EmptyString => "" | _ => "." +:+ frac end)
        +:+ "e" +:+ pretty e
      else if (decpt <=? -4)%Z || (16 <? decpt)%Z then
        sign +:+ String d EmptyString
        +:+ (match rest with EmptyString => "" | _ => "." +:+ rest end)
        +:+ "e" +:+ (if (decpt - 1 <? 0)%Z then "-" else "+")
        +:+ (if (Z.abs (decpt - 1) <? 10)%Z then "0" else "") +:+ pretty (Z.abs (decpt - 1))
      else if (decpt <=? 0)%Z then sign +:+ "0." +:+ times (Z.to_nat (- decpt)) "0" +:+ sig
      else if (Z.of_nat n <=? decpt)%Z then
        sign +:+ sig +:+ times (Z.to_nat (decpt - Z.of_nat n)) "0" +:+ ".0"
      else
        sign +:+ substring 0 (Z.to_nat decpt) sig +:+ "."
        +:+ substring (Z.to_nat decpt) (n - Z.to_nat decpt) sig
  end.

(** The digit limit of [int]. *)
Definition max_str_digits : nat := 4300.

(** A number after its sign: an integer when it has neither fraction
    nor exponent, a float otherwise. *)
Definition parse_number (negative : bool) (s : string) : reading (json * string) :=
  match integer_part s with
  | None => malformed
  | Some (whole, r) =>
      let '(frac, r1) := match fraction_part r with
                         | Some (f, r1) => (Some f, r1)
                         | None => (None, r)
                         end in
      let '(e, r2) := match exponent_part r1 with
                      | Some (e, r2) => (Some e, r2)
                      | None => (None, r1)
                      end in
      match frac, e with
      | None, None =>
          if (max_str_digits <? String.length whole)%nat then Stopped ValueError
          else Got (JInt (if negative then - digits_value whole 0 else digits_value whole 0), r2)
      | _, _ => Got (JFloat (float_repr negative whole (default "" frac) (default 0 e)), r2)
      end
  end.

Fixpoint parse_value (fuel : nat) (s : string) {struct fuel} : reading (json * string) :=
  match fuel with
  | O => malformed
  | S fuel' =>
      match skip_ws s with
      | String c r =>
          match nat_of_ascii c with
          | 110%nat => pair JNull <$> expect "ull" r
          | 116%nat => pair (JBool true) <$> expect "rue" r
          | 102%nat => pair (JBool false) <$> expect "alse" r
          | 78%nat => pair (JFloat "nan") <$> expect "aN" r
          | 73%nat => pair (JFloat "inf") <$> expect "nfinity" r
          | 34%nat => '(str, r') ← parse_string r ""; Got (JStr str, r')
          | 45%nat =>
              match r with
              | String "I" r' => pair (JFloat "-inf") <$> expect "nfinity" r'
              | _ => parse_number true r
              end
          | 91%nat =>
              match skip_ws r with
              | String "]" r' => Got (JArr [], r')
              | _ => '(items, r') ← parse_elements fuel' r; Got (JArr items, r')
              end
          | 123%nat =>
              match skip_ws r with
              | String "}" r' => Got (JObj [], r')
              | _ => '(members, r') ← parse_members fuel' r; Got (JObj members, r')
              end
          | _ => parse_number false (String c r)
          end
      | EmptyString => malformed
      end
  end
with parse_elements (fuel : nat) (s : string) {struct fuel}
    : reading (list json * string) :=
  match fuel with
  | O => malformed
  | S fuel' =>
      '(v, r) ← parse_value fuel' s;
      match skip_ws r with
      | String "," r' => '(vs, r'') ← parse_elements fuel' r'; Got (v :: vs, r'')
      | String "]" r' => Got ([v], r')
      | _ => malformed
      end
  end
with parse_members (fuel : nat) (s : string) {struct fuel}
    : reading (list (string * json) * string) :=
  match fuel with
  | O => malformed
  | S fuel' =>
      match skip_ws s with
      | String c r =>
          if (nat_of_ascii c =? 34)%nat then
            '(k, r1) ← parse_string r "";
            match skip_ws r1 with
            | String ":" r2 =>
                '(v, r3) ← parse_value fuel' r2;
                match skip_ws r3 with
                | String "," r4 => '(ms, r5) ← parse_members fuel' r4; Got ((k, v) :: ms, r5)
                | String "}" r4 => Got ([(k, v)], r4)
                | _ => malformed
                end
            | _ => malformed
            end
          else malformed
      | EmptyString => malformed
      end
  end.

(** One value, with white space around it and nothing else. *)
Definition read (s : string) : reading json :=
  '(v, r) ← parse_value (2 * String.length s + 2) s;
  match skip_ws r with
  | EmptyString => Got v
  | _ => malformed
  end.

(** [json.loads]: the value read, and the error when there is none. *)
Definition loads (s : string) : option json :=
  match read s with
  | Got v => Some v
  | Stopped _ => None
  end.

Definition loads_error (s : string) : exn :=
  match read s with
  | Got _ => JSONDecodeError
  | Stopped e => e
  end.

(** [repr] of a container; a container met inside itself prints as an
    ellipsis. *)
Fixpoint repr_aux (fuel : nat) (h : gmap loc pyobj) (inside : list loc)
    (v : pyval) : string :=
  match v with
  | PNone => "None"
  | PBool true => "True"
  | PBool false => "False"
  | PInt z => pretty z
  | PFloat r => r
  | PStr s => "'" +:+ s +:+ "'"
  | PRef l =>
      match fuel with
      | O => "..."
      | S fuel' =>
          match h !! l with
          | Some (OList xs) =>
              if bool_decide (l ∈ inside) then "[...]"
              else "[" +:+ join ", " (map (repr_aux fuel' h (l :: inside)) xs) +:+ "]"
          | Some (ODict kvs) =>
              if bool_decide (l ∈ inside) then "{...}"
              else "{" +:+ join ", "
                     (map (fun kv => "'" +:+ kv.1 +:+ "': " +:+ repr_aux fuel' h (l :: inside) kv.2) kvs)
                   +:+ "}"
          | None => "..."
          end
      end
  end.

(** The float nearest to a natural number, which is that number
    rounded to 53 bits, to even on a tie. *)
Definition nearest_float (n : Z) : Z :=
  let bits := Z.log2 n + 1 in
  if (bits <=? 53)%Z then n
  else
    let unit := 2 ^ (bits - 53) in
    let q := n / unit in
    let r := n mod unit in
    let up := ((unit <? 2 * r) || ((2 * r =? unit) && Z.odd q))%Z in
    (if up then q + 1 else q) * unit.

(** The integer a float equals, from its [repr]: the digits before
    and after the point, times ten to the power of the exponent, when
    that is an integer; the float is the one nearest to it. *)
Definition integer_of_repr (r : string) : option Z :=
  let '(negative, r0) := match r with
                         | String "-" r0 => (true, r0)
                         | _ => (false, r)
                         end in
  match span_digits r0 with
  | (EmptyString, _) => None
  | (whole, r1) =>
      let '(frac, r2) := match fraction_part r1 with
                         | Some (f, r2) => (f, r2)
                         | None => ("", r1)
                         end in
      let '(e, r3) := match exponent_part r2 with
                      | Some (e, r3) => (e, r3)
                      | None => (0, r2)
                      end in
      match r3 with
      | EmptyString =>
          let m := digits_value (whole +:+ frac) 0 in
          let k := e - Z.of_nat (String.length frac) in
          let z := if (0 <=? k)%Z then Some (m * 10 ^ k)
                   else if (m mod 10 ^ (- k) =? 0)%Z then Some (m / 10 ^ (- k))
                   else None in
          (fun z => if negative then - nearest_float z else nearest_float z) <$> z
      | _ => None
      end
  end.

(** The zeros among the decimal digits of Unicode 14.0 that are not
    ASCII; the digits from one to nine follow each of them. *)
Definition decimal_zeros : list Z :=
  [1632; 1776; 1984; 2406; 2534; 2662; 2790; 2918; 3046; 3174; 3302; 3430; 3558;
   3664; 3792; 3872; 4160; 4240; 6112; 6160; 6470; 6608; 6784; 6800; 6992; 7088;
   7232; 7248; 42528; 43216; 43264; 43472; 43504; 43600; 44016; 65296; 66720;
   68912; 69734; 69872; 69942; 70096; 70384; 70736; 70864; 71248; 71360; 71472;
   71904; 72016; 72784; 73040; 73120; 92768; 92864; 93008; 120782; 120792;
   120802; 120812; 120822; 123200; 123632; 125264; 130032].

Definition decimal_of (c : string) : option Z :=
  let n := code_point c in
  (fun zero => n - zero)
    <$> List.find (fun zero => ((zero <=? n) && (n <=? zero + 9))%Z) decimal_zeros.

#[local] Instance runtime : PyRuntime := {|
  json_loads := loads;
  json_loads_error := loads_error;
  json_dumps := dumps;
  json_dumps_indent2 := dumps_indent 2 0;
  py_repr := fun h l => repr_aux (S (size h)) h [] (PRef l);
  unicode_decimal := decimal_of;
  int_max_str_digits := max_str_digits;
  float_integer := integer_of_repr;
|}.

End MiniRuntime.

(** ** Notions the properties are stated with *)

(** The six action kinds every policy covers. *)
Definition action_kinds : gset string :=
  {[ "write_todos"; "task"; "get_document"; "get_document_pages";
     "write_file"; "edit_file" ]}.


Section solicited.
Context `{PyRuntime}.

(** What the audit step after a review does to the world. *)
Definition logged (cfg : agent_config) (thread_id : string) (iteration : Z)
    (action : action_request) (d : decision) (w w' : world) : Prop :=
  match audit_logger cfg with
  | Some logger =>
      AuditLogger.log_review logger action d (reviewer_name cfg) thread_id
        (Some (review_context iteration thread_id)) w = (Ok tt, w')
  | None => w' = w
  end.

(** [solicited cfg thread_id iteration cm actions w ds w']: starting
    in [w], the reviewer was asked about each of [actions] in turn,
    each with the review configuration [cm] has for its kind; the
    answers are [ds], in the same order, and the world ends as [w']. *)
Inductive solicited (cfg : agent_config) (thread_id : string) (iteration : Z)
    (cm : gmap string review_config)
    : list action_request -> world -> list decision -> world -> Prop :=
| solicited_nil w : solicited cfg thread_id iteration cm [] w [] w
| solicited_cons action rest rc d ds w w1 w2 w3 :
    cm !! name action = Some rc ->
    @review_action (review_interface cfg) action rc
      (Some (review_context iteration thread_id)) w = (Ok d, w1) ->
    logged cfg thread_id iteration action d w1 w2 ->
    solicited cfg thread_id iteration cm rest w2 ds w3 ->
    solicited cfg thread_id iteration cm (action :: rest) w (d :: ds) w3.


(** The call [c] resumes the agent after the result [prev]: it carries
    the thread of the run and the decisions solicited, in order, for
    the batch [prev] announced; [n] numbers the pass. *)
Definition resumes (cfg : agent_config) (thread_id : string) (n : Z)
    (prev : agent_result) (c : agent_call) : Prop :=
  call_config c = RunConfig thread_id /\
  exists interrupts ds w w',
    pending prev = Some interrupts /\
    call_input c = CommandResume ds /\
    solicited cfg thread_id n (config_map (review_configs interrupts))
      (action_requests interrupts) w ds w'.


(** One review to log. *)
Record review_record := ReviewRecord {
  rr_action : action_request;
  rr_decision : decision;
  rr_reviewer : string;
  rr_thread_id : string;
  rr_context : option context;
}.

(** [log_review] called once for each record. *)
Fixpoint log_all (self : AuditLogger.t) (rs : list review_record) : IO unit :=
  match rs with
  | [] => mret tt
  | r :: rest =>
      AuditLogger.log_review self (rr_action r) (rr_decision r) (rr_reviewer r)
        (rr_thread_id r) (rr_context r);;
      log_all self rest
  end.

(** The entry the [i]-th of a series of [log_review] calls started in
    [w] writes for [r]. *)
Definition entry_of (w : world) (i : nat) (r : review_record) : option json :=
  AuditLogger.log_entry (heap w) (now_isoformat w (ticks w + i)%nat)
    (rr_thread_id r) (rr_reviewer r) (rr_action r) (rr_decision r) (rr_context r).

(** The line [log_review] writes for an entry, and the content a
    series of entries adds to the log. *)
Definition line_of (e : json) : string := json_dumps e +:+ nl.

Fixpoint concat_lines (es : list json) : string :=
  match es with
  | [] => ""
  | e :: rest => line_of e +:+ concat_lines rest
  end.

(** [s'] counts [n] reviews more than [s]. *)
Definition counted (n : Z) (s s' : review_stats) : Prop :=
  total_reviews s' = total_reviews s + n /\
  sum_values (by_decision s') = sum_values (by_decision s) + n /\
  sum_values (by_tool s') = sum_values (by_tool s) + n /\
  sum_values (by_reviewer s') = sum_values (by_reviewer s) + n.

(** The world after the banner a pass of the loop starts with. *)
Definition banner (max_iterations iteration : Z) (w : world) : world :=
  set_stdout (stdout w ++ [nl +:+ times 80 "=";
                           "Interrupt " +:+ pretty iteration +:+ "/" +:+ pretty max_iterations;
                           times 80 "="]) w.




End solicited.

(** A string without a line end in it. *)
Fixpoint one_line (s : string) : bool :=
  match s with
  | EmptyString => true
  | String c r => negb (Ascii.eqb c LF) && negb (Ascii.eqb c CR) && one_line r
  end.

(** ** Further notions

    Predicates on the monad and on the heap that the properties of the
    interactive review, of the audit log and of JSON loading are stated
    with. *)

(** [m], when it returns, returns a value in [Q]. *)
Definition returns_only {A} (Q : A -> Prop) (m : IO A) : Prop :=
  forall w a w', m w = (Ok a, w') -> Q a.

(** [m] leaves every world [w] in a world related to it by [R],
    whether it returns or raises. *)
Definition keeps {A} (R : world -> world -> Prop) (m : IO A) : Prop :=
  forall w, R w (m w).2.

(** Only the terminal differs: what was read and what was printed. *)
Definition terminal_only (w w' : world) : Prop :=
  heap w' = heap w /\ files w' = files w /\ ticks w' = ticks w /\
  now_isoformat w' = now_isoformat w /\ run_editor w' = run_editor w.

(** Every object is still there, unchanged. *)
Definition objects_kept (w w' : world) : Prop := heap w ⊆ heap w'.

(** The decisions a review configuration allows. *)
Definition default_allowed : list string := ["approve"; "edit"; "reject"].

Definition allowed_of (rc : review_config) : list string :=
  default default_allowed (allowed_decisions rc).

(** What a decision of the interactive review can be, given the
    decisions the configuration allows. *)
Definition decision_within (allowed : list string) (a : action_request)
    (d : decision) : Prop :=
  (d = approve /\ "approve" ∈ allowed) \/
  (d = reject /\ ("reject" ∈ allowed \/ "edit" ∈ allowed)) \/
  (exists edited_args, d = edit (ActionRequest (name a) edited_args) /\ "edit" ∈ allowed).

Definition edit_or_reject (a : action_request) (d : decision) : Prop :=
  d = reject \/ exists edited_args, d = edit (ActionRequest (name a) edited_args).




(** The two loops of [from_json], by themselves. *)
Fixpoint from_json_items (js : list json) (h : gmap loc pyobj)
    : list pyval * gmap loc pyobj :=
  match js with
  | [] => ([], h)
  | j :: js' =>
      let '(v, h1) := from_json j h in
      let '(vs, h2) := from_json_items js' h1 in
      (v :: vs, h2)
  end.

Fixpoint from_json_members (ms : list (string * json)) (acc : list (string * pyval))
    (h : gmap loc pyobj) : list (string * pyval) * gmap loc pyobj :=
  match ms with
  | [] => (acc, h)
  | (k, j) :: ms' =>
      let '(v, h1) := from_json j h in
      from_json_members ms' (assoc_set k v acc) h1
  end.

(** [count] applied for each key of [ks] in turn. *)
Fixpoint tally (ks : list pykey) (d : gmap pykey Z) : gmap pykey Z :=
  match ks with
  | [] => d
  | k :: rest => tally rest (AuditLogger.count k d)
  end.

(** How many of [rs] have [k] as their [f]. *)
Definition reviews_with (f : review_record -> string) (k : string)
    (rs : list review_record) : Z :=
  Z.of_nat (length (filter (fun r => f r = k) rs)).

(** A count as a dict built by counting holds it: no entry for zero. *)
Definition positive (n : Z) : option Z := if (n =? 0)%Z then None else Some n.

(** [e] is the entry [log_review] writes for the decision [d] on the
    action [a]. *)
Definition entry_for (thread_id reviewer : string) (a : action_request)
    (d : decision) (e : json) : Prop :=
  exists timestamp action_args edited_args context,
    e = JObj [("timestamp", JStr timestamp); ("thread_id", JStr thread_id);
              ("reviewer", JStr reviewer); ("action_tool", JStr (name a));
              ("action_args", action_args); ("decision_type", JStr (type d));
              ("edited_args", edited_args); ("context", context)].



(** ** Fixtures for concrete runs *)

Module Fixtures.

Definition world0 (h : gmap loc pyobj) (inp : list input_event) : world :=
  World h inp [] ∅ 0%nat (fun n => "2024-01-01T00:00:0" +:+ pretty n) id.

(** [{"name": "write_todos",
      "args": {"todos": [{"task": "Existing", "status": "pending"}]}}] *)
Definition todo_heap : gmap loc pyobj :=
  list_to_map [
    (0%nat, ODict [("task", PStr "Existing"); ("status", PStr "pending")]);
    (1%nat, OList [PRef 0%nat]);
    (2%nat, ODict [("todos", PRef 1%nat)])
  ].

Definition todo_action : action_request := ActionRequest "write_todos" (PRef 2%nat).

Definition full_review : review_config :=
  ReviewConfig "write_todos" (Some ["approve"; "edit"; "reject"]).

Definition todos_before : json :=
  JObj [("todos", JArr [JObj [("task", JStr "Existing"); ("status", JStr "pending")]])].

(** [{"name": "task", "args": {"name": "legal-analyzer", "task": "Analyze document"}}] *)
Definition task_heap : gmap loc pyobj :=
  list_to_map [
    (0%nat, ODict [("name", PStr "legal-analyzer"); ("task", PStr "Analyze document")])
  ].

Definition task_action : action_request := ActionRequest "task" (PRef 0%nat).



(** A reviewer that answers with the kind of the action it is shown. *)
Definition EchoInterface : ReviewInterface :=
  {| review_action := fun action_request _ _ =>
       mret (Decision (name action_request) None) |}.

Definition batch (kinds : list string) : interrupt_value :=
  InterruptValue
    ((fun k => ActionRequest k PNone) <$> kinds)
    ((fun k => ReviewConfig k (Some ["approve"])) <$> kinds).

Definition paused (kinds : list string) : agent_result :=
  AgentResult [] (Some [Interrupt (batch kinds)]).

Definition done : agent_result :=
  AgentResult [("assistant", "Done")] None.


(** An agent that pauses once with the given kinds, then finishes. *)
Definition pause_once (kinds : list string) : agent := fun history _ w =>
  match history with
  | [] => (paused kinds, w)
  | _ => (done, w)
  end.

(** An agent whose batch names a kind no review configuration covers. *)
Definition drifted : agent := fun _ _ w =>
  (AgentResult [] (Some [Interrupt
     (InterruptValue [ActionRequest "task" PNone; ActionRequest "write_file" PNone]
                     [ReviewConfig "task" None])]), w).


Definition config_with (a : agent) (ri : ReviewInterface)
    (logger : option AuditLogger.t) : agent_config :=
  AgentConfig a ApprovalLevel.high_oversight ri "test" logger.

Definition review_todos (rt : PyRuntime) (inp : list input_event)
    : outcome decision * world :=
  @review_action (@CLIReviewInterface rt) todo_action full_review None
    (world0 todo_heap inp).

Definition todos_added : json :=
  JObj [("todos", JArr [
    JObj [("task", JStr "Existing"); ("status", JStr "pending")];
    JObj [("task", JStr "New task"); ("status", JStr "pending"); ("priority", JStr "high")]])].

Definition todos_removed : json := JObj [("todos", JArr [])].

Definition todos_reprioritized : json :=
  JObj [("todos", JArr [
    JObj [("task", JStr "Existing"); ("status", JStr "pending"); ("priority", JStr "low")]])].

(** An audit log with one entry, and the same log with an empty line
    after it. *)
Definition audit : AuditLogger.t := AuditLogger.Make "review_audit.jsonl".

Definition one_logged : world :=
  (@AuditLogger.log_review MiniRuntime.runtime audit (ActionRequest "task" PNone)
     approve "test_user" "session_001" None (world0 ∅ [])).2.

Definition one_logged_then_blank : world :=
  (append_file "review_audit.jsonl" nl one_logged).2.

(** Three reviews to log: an approval, an edit of the todo action,
    a rejection. *)
Definition three_reviews : list review_record := [
  ReviewRecord (ActionRequest "task" PNone) approve "user_a" "session_001" None;
  ReviewRecord todo_action (edit todo_action) "user_b" "session_001"
    (Some [("stage", PStr "iteration 1"); ("thread_id", PStr "session_001")]);
  ReviewRecord (ActionRequest "write_file" (PStr "x")) reject "user_a" "session_002" None
].

End Fixtures.

(** ** More fixtures *)

Module Scenes.

(** U+00A0, U+001F and U+3000. *)
Definition no_break_space : string :=
  String (ascii_of_nat 194) (String (ascii_of_nat 160) EmptyString).
Definition unit_separator : string := String (ascii_of_nat 31) EmptyString.

Definition ideographic_space : string :=
  String (ascii_of_nat 227) (String (ascii_of_nat 128) (String (ascii_of_nat 128) EmptyString)).



(** A list that contains itself, as the arguments of an action. *)
Definition cyclic_heap : gmap loc pyobj :=
  list_to_map [(0%nat, OList [PRef 0%nat])].

Definition cyclic_action : action_request := ActionRequest "task" (PRef 0%nat).

(** An agent that finishes on every call. *)
Definition finished : agent := fun _ _ w => (Fixtures.done, w).

(** Two entries of an audit log, and a world whose log holds their
    lines followed by two blank lines. *)
Definition entry (reviewer tool decision : string) : json :=
  JObj [("timestamp", JStr "2024-01-01T00:00:00"); ("thread_id", JStr "session_001");
        ("reviewer", JStr reviewer); ("action_tool", JStr tool);
        ("action_args", JNull); ("decision_type", JStr decision);
        ("edited_args", JNull); ("context", JNull)].

Definition two_entries : list json :=
  [entry "user_a" "task" "approve"; entry "user_b" "write_file" "reject"].

Definition log_with_blank_lines (rt : PyRuntime) : world :=
  World ∅ [] []
    {[ "review_audit.jsonl" := @concat_lines rt two_entries +:+ times 2 nl ]}
    0%nat (fun n => "2024-01-01T00:00:0" +:+ pretty n) id.

(** Two actions of a batch and the configurations for them. *)
Definition two_actions : list action_request :=
  [ActionRequest "task" PNone; ActionRequest "write_file" (PStr "x")].

Definition two_configs : gmap string review_config :=
  config_map [ReviewConfig "task" (Some ["reject"]); ReviewConfig "write_file" None].

(** A data room in which the id [doc_001] is used twice. *)
Definition room : DataRoom.t :=
  DataRoom.Make [
    DataRoom.Document "doc_001" "Share purchase agreement"
      [DataRoom.Page 1 "Parties" "p1.png"; DataRoom.Page 2 "Warranties" "p2.png"];
    DataRoom.Document "doc_002" "Lease" [];
    DataRoom.Document "doc_001" "Superseded draft" [DataRoom.Page 1 "Draft" "d1.png"]
  ].

End Scenes.

(** * Properties *)

(** ** Python helpers on concrete inputs *)

Example strip_ex : strip "  2 " = "2" /\ strip "" = "" /\ strip " a b " = "a b".
Proof. repeat split; reflexivity. Qed.

(** A no-break space and a unit separator are white space to [strip];
    to [int] the first is and the second is not. *)
Example strip_unicode_ex :
  strip (Scenes.no_break_space +:+ "1") = "1" /\
  strip (Scenes.unit_separator +:+ "1" +:+ Scenes.ideographic_space) = "1" /\
  string_chars (Scenes.no_break_space +:+ "1") = [Scenes.no_break_space; "1"].
Proof. repeat split; reflexivity. Qed.

Example py_int_ex `{PyRuntime} :
  py_int " 12 " = Some 12 /\ py_int "-3" = Some (-3) /\ py_int "1_0" = Some 10 /\
  py_int "abc" = None /\ py_int "" = None /\ py_int "1__0" = None /\
  py_int "_1" = None /\ py_int "1_" = None /\ py_int "2.5" = None /\
  py_int (Scenes.no_break_space +:+ "1") = Some 1 /\
  py_int (Scenes.unit_separator +:+ "1") = None.
Proof. repeat split; reflexivity. Qed.

Example universal_newlines_ex :
  universal_newlines ("a" +:+ String CR (String LF "b") +:+ String CR "c") =
  "a" +:+ String LF "b" +:+ String LF "c".
Proof. reflexivity. Qed.

(** ** Approval configurations *)

(** C8: the three canned policies, and [custom] for every choice of its
    four booleans, are mappings whose key set is exactly the six action
    kinds. *)
Theorem policies_have_the_six_action_kinds :
  dom ApprovalLevel.high_oversight = action_kinds /\
  dom ApprovalLevel.moderate_oversight = action_kinds /\
  dom ApprovalLevel.minimal_oversight = action_kinds /\
  forall planning delegation document_access file_operations : bool,
    dom (ApprovalLevel.custom planning delegation document_access file_operations)
    = action_kinds.
Proof.
  unfold ApprovalLevel.high_oversight, ApprovalLevel.moderate_oversight,
    ApprovalLevel.minimal_oversight, ApprovalLevel.custom, action_kinds.
  repeat split; intros; rewrite dom_list_to_map_L; simpl; set_solver.
Qed.

(** C9: [moderate_oversight] gives [edit_file] the restricted decision
    set approve/reject, as a dict with [allowed_decisions]; the other
    policies and [custom] give it a plain boolean. *)
Theorem edit_file_asymmetry :
  ApprovalLevel.moderate_oversight !! "edit_file"
    = Some (OnDecisions ["approve"; "reject"]) /\
  ApprovalLevel.high_oversight !! "edit_file" = Some (OnBool true) /\
  ApprovalLevel.minimal_oversight !! "edit_file" = Some (OnBool true) /\
  forall planning delegation document_access file_operations : bool,
    ApprovalLevel.custom planning delegation document_access file_operations
      !! "edit_file" = Some (OnBool file_operations).
Proof.
  split; [reflexivity | split; [reflexivity | split; [reflexivity |]]].
  intros planning delegation document_access file_operations.
  unfold ApprovalLevel.custom. simpl.
  repeat (rewrite lookup_insert_ne by discriminate).
  apply lookup_insert_eq.
Qed.

(** ** Running the monad *)

Lemma bind_Ok {S A B} (m : M S A) (f : A -> M S B) s a s' :
  m s = (Ok a, s') -> (m ≫= f) s = f a s'.
Proof. intros E. unfold mbind, M_bind. rewrite E. reflexivity. Qed.


Lemma bind_ret {S A B} (a : A) (f : A -> M S B) s : (mret a ≫= f) s = f a s.
Proof. reflexivity. Qed.

Lemma fmap_Ok {S A B} (m : M S A) (f : A -> B) s a s' :
  m s = (Ok a, s') -> (f <$> m) s = (Ok (f a), s').
Proof. intros E. unfold fmap, M_fmap. rewrite E. reflexivity. Qed.








Ltac norm_world :=
  cbn [set_stdout set_stdin set_heap set_files set_ticks
       stdout heap stdin files ticks now_isoformat run_editor].

(** ** The editing sub-menus *)

Section edit_menus.
Context `{PyRuntime}.
Import CLIReviewInterface.




End edit_menus.

Lemma not_in_list (s : string) (l : list string) :
  forallb (fun k => negb (String.eqb s k)) l = true -> s ∉ l.
Proof.
  induction l as [|k l IH]; simpl; intros E.
  - apply not_elem_of_nil.
  - apply andb_true_iff in E as [E1 E2]. apply not_elem_of_cons. split.
    + apply String.eqb_neq. by destruct (String.eqb s k).
    + by apply IH.
Qed.

Section edit_menus_concrete.
#[local] Existing Instance MiniRuntime.runtime.


End edit_menus_concrete.

(** ** What the interactive review does to the action it is shown *)

(** C4 (the code departs from it): a review of a [write_todos] action
    that goes through add-todo, remove-todo or change-priority changes
    the arguments of the action request it was given: the todo list is
    edited in place, and the returned edit wraps that same list. *)
Theorem edit_todos_changes_the_action_request (rt : PyRuntime) :
  let before := to_json Fixtures.todo_heap (args Fixtures.todo_action) in
  let after (inp : list input_event) :=
    to_json (heap (Fixtures.review_todos rt inp).2) (args Fixtures.todo_action) in
  let edited (inp : list input_event) :=
    match (Fixtures.review_todos rt inp).1 with
    | Ok (Decision "edit" (Some a)) => to_json (heap (Fixtures.review_todos rt inp).2) (args a)
    | _ => None
    end in
  let add := [Line "2"; Line "1"; Line "New task"; Line "high"] in
  let remove := [Line "2"; Line "2"; Line "1"] in
  let reprioritize := [Line "2"; Line "3"; Line "1"; Line "low"] in
  before = Some Fixtures.todos_before /\
  after add = Some Fixtures.todos_added /\ edited add = Some Fixtures.todos_added /\
  after remove = Some Fixtures.todos_removed /\ edited remove = Some Fixtures.todos_removed /\
  after reprioritize = Some Fixtures.todos_reprioritized /\
  edited reprioritize = Some Fixtures.todos_reprioritized /\
  Fixtures.todos_before <> Fixtures.todos_added /\
  Fixtures.todos_before <> Fixtures.todos_removed /\
  Fixtures.todos_before <> Fixtures.todos_reprioritized.
Proof.
  cbv zeta. repeat split; try (vm_compute; reflexivity); discriminate.
Qed.

(** C5 (the code departs from it): a todo number that is not a number
    makes the review raise [ValueError] to its caller, from the remove
    prompt and from the change-priority prompt alike; input that ends
    before a decision is reached raises [EOFError]. *)
Theorem non_numeric_todo_number_raises (rt : PyRuntime) :
  (Fixtures.review_todos rt [Line "2"; Line "2"; Line "abc"]).1 = Raise ValueError /\
  (Fixtures.review_todos rt [Line "2"; Line "3"; Line "abc"]).1 = Raise ValueError /\
  (Fixtures.review_todos rt [Line "2"; Line "2"; Line ""]).1 = Raise ValueError /\
  (Fixtures.review_todos rt [Line "9"]).1 = Raise EOFError.
Proof. repeat split; vm_compute; reflexivity. Qed.

(** What the review does handle: an unknown menu choice is asked again,
    a todo number out of range changes nothing, text that is not JSON
    turns the generic edit into a reject. *)
Example malformed_input_handled :
  let rt := MiniRuntime.runtime in
  (Fixtures.review_todos rt [Line "x"; Line ""; Line "1"]).1 = Ok approve /\
  (exists a, (Fixtures.review_todos rt [Line "2"; Line "2"; Line "7"]).1 = Ok (edit a)) /\
  to_json (heap (Fixtures.review_todos rt [Line "2"; Line "2"; Line "7"]).2)
    (args Fixtures.todo_action) = Some Fixtures.todos_before /\
  (Fixtures.review_todos rt [Line "2"; Line "4"; Line "{oops"; Eof]).1 = Ok reject.
Proof.
  cbv zeta. split; [| split; [| split]]; try (vm_compute; reflexivity).
  eexists. vm_compute. reflexivity.
Qed.

(** ** Reading the audit log *)

(** C6 (the code departs from it): an empty line in the log makes
    [get_review_stats] raise [JSONDecodeError]; the same log without the
    empty line gives its aggregate. *)
Section audit_concrete.
#[local] Existing Instance MiniRuntime.runtime.

Theorem blank_line_breaks_review_stats :
files Fixtures.one_logged !! "review_audit.jsonl"
  = Some (json_dumps
            (JObj [("timestamp", JStr "2024-01-01T00:00:00"); ("thread_id", JStr "session_001");
                   ("reviewer", JStr "test_user"); ("action_tool", JStr "task");
                   ("action_args", JNull); ("decision_type", JStr "approve");
                   ("edited_args", JNull); ("context", JNull)]) +:+ nl) /\
files Fixtures.one_logged_then_blank !! "review_audit.jsonl"
  = (fun c => c +:+ nl) <$> files Fixtures.one_logged !! "review_audit.jsonl" /\
(AuditLogger.get_review_stats Fixtures.audit Fixtures.one_logged).1
  = Ok (Some (ReviewStats 1
          (<[KStr "approve" := 1]> (AuditLogger.by_decision_start))
          {[KStr "task" := 1]} {[KStr "test_user" := 1]})) /\
(AuditLogger.get_review_stats Fixtures.audit Fixtures.one_logged_then_blank).1
  = Raise JSONDecodeError.
Proof. repeat split; vm_compute; reflexivity. Qed.

End audit_concrete.

(** ** Logging and the aggregate *)

Lemma string_app_nil_r (s : string) : s +:+ "" = s.
Proof.
  induction s as [|c s IH]; [reflexivity|].
  change (String c (s +:+ "") = String c s). by rewrite IH.
Qed.

Lemma string_app_assoc (a b c : string) : (a +:+ b) +:+ c = a +:+ (b +:+ c).
Proof.
  induction a as [|x a IH]; [reflexivity|].
  change (String x ((a +:+ b) +:+ c) = String x (a +:+ (b +:+ c))). by rewrite IH.
Qed.

Lemma file_lines_line body : forall cur rest,
  one_line body = true ->
  file_lines cur (body +:+ nl +:+ rest) = (cur +:+ body +:+ nl) :: file_lines "" rest.
Proof.
  induction body as [|c body IH]; intros cur rest Hone.
  - reflexivity.
  - simpl in Hone. apply andb_true_iff in Hone as [Hc Hone].
    apply andb_true_iff in Hc as [Hlf Hcr].
    change (String c body +:+ nl +:+ rest) with (String c (body +:+ nl +:+ rest)).
    cbn [file_lines].
    destruct (Ascii.eqb c LF); [discriminate|].
    destruct (Ascii.eqb c CR); [discriminate|].
    rewrite IH by exact Hone.
    by rewrite string_app_assoc.
Qed.

(** sums *)
Lemma sum_values_count k (d : gmap pykey Z) :
  sum_values (AuditLogger.count k d) = sum_values d + 1.
Proof.
  unfold sum_values, AuditLogger.count.
  assert (Hcomm : forall (m : gmap pykey Z) (j1 j2 : pykey) (z1 z2 y : Z),
            j1 ≠ j2 -> m !! j1 = Some z1 -> m !! j2 = Some z2 ->
            z1 + (z2 + y) = z2 + (z1 + y)) by (intros; lia).
  destruct (d !! k) as [v|] eqn:E; simpl.
  - rewrite <- insert_delete_eq.
    rewrite map_fold_insert_L; [| by eauto | by apply lookup_delete_eq].
    rewrite (map_fold_delete_L _ _ k v d); [lia | by eauto | exact E].
  - rewrite map_fold_insert_L; [lia | by eauto | exact E].
Qed.

Lemma sum_values_start : sum_values AuditLogger.by_decision_start = 0.
Proof. reflexivity. Qed.
Lemma sum_values_empty : sum_values ∅ = 0.
Proof. reflexivity. Qed.

Section audit.
Context `{PyRuntime}.
Import AuditLogger.

Lemma file_lines_concat es :
  Forall (fun e => one_line (json_dumps e) = true) es ->
  file_lines "" (concat_lines es) = line_of <$> es.
Proof.
  induction 1 as [|e es He _ IH]; [reflexivity|].
  cbn [concat_lines fmap list_fmap]. unfold line_of at 1.
  rewrite string_app_assoc, file_lines_line by exact He.
  by rewrite IH.
Qed.

(** What one [log_review] does. *)
Lemma log_review_run self a d reviewer thread_id ctx w :
  log_review self a d reviewer thread_id ctx w =
  match log_entry (heap w) (now_isoformat w (ticks w)) thread_id reviewer a d ctx with
  | Some e =>
      (Ok tt,
       set_files (<[log_file self := default "" (files w !! log_file self) +:+ line_of e]>
                    (files w))
         (set_ticks (S (ticks w)) w))
  | None =>
      (Raise ValueError,
       set_files (<[log_file self := default "" (files w !! log_file self)]> (files w))
         (set_ticks (S (ticks w)) w))
  end.
Proof.
  destruct w as [h inp o f t0 nw ed]. unfold log_review.
  unfold mbind, M_bind, datetime_now, append_file, modify, get, mthrow, M_throw.
  norm_world.
  destruct (log_entry _ _ _ _ _ _ _); norm_world;
    rewrite ?lookup_insert_eq; cbn [default]; rewrite !string_app_nil_r;
    [| reflexivity].
  by rewrite insert_insert_eq.
Qed.

(** The file after a series of logs. *)
Lemma log_all_run self rs : forall w w',
  log_all self rs w = (Ok tt, w') ->
  exists es,
    length es = length rs /\
    (forall i r, rs !! i = Some r -> entry_of w i r = es !! i) /\
    heap w' = heap w /\
    files w' !! log_file self
    = match rs with
      | [] => files w !! log_file self
      | _ => Some (default "" (files w !! log_file self) +:+ concat_lines es)
      end.
Proof.
  induction rs as [|r rs IH]; intros w w' E.
  - cbn in E. injection E as <-. exists []. repeat split. intros i r Hr. by destruct i.
  - cbn [log_all] in E. unfold mbind, M_bind in E.
    rewrite log_review_run in E.
    destruct (log_entry _ _ _ _ _ _ _) as [e|] eqn:He; [| discriminate].
    apply IH in E as (es & Hlen & Hes & Hheap & Hfile).
    exists (e :: es). split; [| split; [| split]].
    + cbn. by rewrite Hlen.
    + intros [|i] r' Hr'.
      * injection Hr' as <-. unfold entry_of. by rewrite Nat.add_0_r.
      * change (entry_of w (S i) r' = es !! i).
        rewrite <- (Hes i r' Hr'). unfold entry_of. destruct w. norm_world.
        by rewrite Nat.add_succ_r.
    + rewrite Hheap. by destruct w.
    + rewrite Hfile. destruct w as [h inp o f t0 nw ed]. norm_world.
      rewrite lookup_insert_eq. cbn [default concat_lines].
      unfold id. destruct rs; [| by rewrite string_app_assoc].
      destruct es; [| discriminate]. cbn [concat_lines]. by rewrite !string_app_nil_r.
Qed.

Lemma log_entry_fields h ts thread_id reviewer a d ctx e :
  log_entry h ts thread_id reviewer a d ctx = Some e ->
  exists action_args edited_args context,
    e = JObj [("timestamp", JStr ts); ("thread_id", JStr thread_id);
              ("reviewer", JStr reviewer); ("action_tool", JStr (name a));
              ("action_args", action_args); ("decision_type", JStr (type d));
              ("edited_args", edited_args); ("context", context)].
Proof.
  unfold log_entry. intros E.
  destruct (to_json h (args a)) as [aa|]; [| discriminate].
  destruct (match edited_action d with Some e0 => to_json h (args e0) | None => Some JNull end)
    as [ea|]; [| discriminate].
  destruct (context_json h ctx) as [cx|]; [| discriminate].
  injection E as <-. by exists aa, ea, cx.
Qed.

(** Counting the line of one logged entry. *)
Lemma count_line_entry stats w h ts thread_id reviewer a d ctx e :
  log_entry h ts thread_id reviewer a d ctx = Some e ->
  json_loads (line_of e) = Some e ->
  count_line stats (line_of e) w
  = (Ok (ReviewStats (total_reviews stats + 1)
           (count (KStr (type d)) (by_decision stats))
           (count (KStr (name a)) (by_tool stats))
           (count (KStr reviewer) (by_reviewer stats))), w).
Proof.
  intros He Hload. apply log_entry_fields in He as (aa & ea & cx & ->).
  unfold count_line. rewrite Hload. reflexivity.
Qed.

Lemma count_lines_entries w0 es : forall rs k stats w,
  length es = length rs ->
  (forall i r, rs !! i = Some r -> entry_of w0 (k + i) r = es !! i) ->
  (forall e, e ∈ es -> json_loads (line_of e) = Some e) ->
  exists stats',
    count_lines stats (line_of <$> es) w = (Ok stats', w) /\
    counted (Z.of_nat (length es)) stats stats'.
Proof.
  induction es as [|e es IH]; intros rs k stats w Hlen Hes Hload.
  - exists stats. split; [reflexivity|]. unfold counted. cbn. repeat split; lia.
  - destruct rs as [|r rs]; [discriminate|].
    cbn [fmap list_fmap count_lines].
    pose proof (Hes 0%nat r eq_refl) as He. cbn in He.
    erewrite bind_Ok; cycle 1.
    { eapply count_line_entry; [exact He|]. apply Hload. by left. }
    edestruct (IH rs (S k)) as (stats' & E & Hc).
    { cbn in Hlen. lia. }
    { intros i r' Hr'. pose proof (Hes (S i) r' Hr') as Hx.
      change ((e :: es) !! S i) with (es !! i) in Hx.
      rewrite <- Hx. f_equal. lia. }
    { intros e' He'. apply Hload. by right. }
    exists stats'. split; [exact E|].
    destruct Hc as (H1 & H2 & H3 & H4). cbn in H1, H2, H3, H4.
    rewrite sum_values_count in H2, H3, H4.
    unfold counted. cbn [length]. repeat split; lia.
Qed.


(** C7, for at least one logged decision: starting from an absent
    store, after [N >= 1] decisions are logged with [log_review],
    [get_review_stats] returns an aggregate whose total is [N] and
    whose counts by decision, by tool and by reviewer each sum to [N].
    The JSON codec is assumed to write each logged entry on one line
    and to read that line back as the entry. *)
Theorem stats_after_logging self rs w w' :
  rs <> [] ->
  files w !! log_file self = None ->
  log_all self rs w = (Ok tt, w') ->
  (forall i r e,
     rs !! i = Some r -> entry_of w i r = Some e ->
     json_loads (json_dumps e +:+ nl) = Some e /\ one_line (json_dumps e) = true) ->
  exists stats,
    get_review_stats self w' = (Ok (Some stats), w') /\
    total_reviews stats = Z.of_nat (length rs) /\
    sum_values (by_decision stats) = Z.of_nat (length rs) /\
    sum_values (by_tool stats) = Z.of_nat (length rs) /\
    sum_values (by_reviewer stats) = Z.of_nat (length rs).
Proof.
  intros Hne Habsent Hlog Hcodec.
  destruct (log_all_run self rs w w' Hlog) as (es & Hlen & Hes & _ & Hfile).
  destruct rs as [|r0 rs0]; [done|]. set (rs := r0 :: rs0) in *.
  rewrite Habsent in Hfile. cbn [default] in Hfile.
  assert (Hall : forall e, e ∈ es ->
            json_loads (line_of e) = Some e /\ one_line (json_dumps e) = true).
  { intros e [i Hi]%list_elem_of_lookup.
    destruct (rs !! i) as [r|] eqn:Hr.
    - apply (Hcodec i r e Hr). by rewrite (Hes i r Hr).
    - apply lookup_ge_None in Hr. apply lookup_lt_Some in Hi. lia. }
  unfold get_review_stats. unfold mbind at 1, M_bind at 1, get at 1.
  rewrite Hfile.
  change ("" +:+ concat_lines es) with (concat_lines es).
  rewrite file_lines_concat by (apply Forall_forall; intros e He; by apply Hall).
  destruct (count_lines_entries w es rs 0%nat stats0 w') as (stats & E & Hc).
  { exact Hlen. }
  { intros i r Hr. by apply Hes. }
  { intros e He. by apply Hall. }
  exists stats. split; [by erewrite fmap_Ok by exact E|].
  destruct Hc as (H1 & H2 & H3 & H4). rewrite Hlen in H1, H2, H3, H4.
  cbn [stats0 total_reviews by_decision by_tool by_reviewer] in H1, H2, H3, H4.
  rewrite sum_values_start in H2. rewrite sum_values_empty in H3, H4.
  repeat split; lia.
Qed.

End audit.

(** C7 as stated fails for [N = 0]: with nothing logged the store is
    still absent, and what [get_review_stats] returns is the empty dict,
    not an aggregate with a total of 0. *)
Section logging_concrete.
#[local] Existing Instance MiniRuntime.runtime.

Lemma no_aggregate_before_the_first_log :
(AuditLogger.get_review_stats Fixtures.audit
   (log_all Fixtures.audit [] (Fixtures.world0 ∅ [])).2).1 = Ok None /\
~ exists stats,
    (AuditLogger.get_review_stats Fixtures.audit
       (log_all Fixtures.audit [] (Fixtures.world0 ∅ [])).2).1 = Ok (Some stats) /\
    total_reviews stats = 0 /\
    sum_values (by_decision stats) = 0 /\
    sum_values (by_tool stats) = 0.
Proof.
split; [reflexivity|].
intros (stats & E & _). vm_compute in E. discriminate.
Qed.

(** Three reviews logged to an absent store. *)
Lemma stats_after_logging_witness :
exists stats,
  AuditLogger.get_review_stats Fixtures.audit
    (log_all Fixtures.audit Fixtures.three_reviews
       (Fixtures.world0 Fixtures.todo_heap [])).2
  = (Ok (Some stats),
     (log_all Fixtures.audit Fixtures.three_reviews
        (Fixtures.world0 Fixtures.todo_heap [])).2) /\
  total_reviews stats = 3 /\
  sum_values (by_decision stats) = 3 /\
  sum_values (by_tool stats) = 3 /\
  sum_values (by_reviewer stats) = 3.
Proof.
apply (@stats_after_logging MiniRuntime.runtime Fixtures.audit Fixtures.three_reviews
         (Fixtures.world0 Fixtures.todo_heap [])).
- discriminate.
- reflexivity.
- vm_compute. reflexivity.
- intros [|[|[|i]]] r e Hr He; try discriminate;
    injection Hr as <-; vm_compute in He; injection He as <-;
    split; vm_compute; reflexivity.
Defined.

End logging_concrete.

(** ** The control loop *)

Section loop.
Context `{PyRuntime}.

Lemma collect_decisions_solicited cfg tid it cm actions :
  forall acc w ds w',
    collect_decisions cfg tid it cm actions acc w = (Ok ds, w') ->
    exists ds', ds = (acc ++ ds')%list /\ solicited cfg tid it cm actions w ds' w'.
Proof.
  induction actions as [|a actions IH]; intros acc w ds w' E.
  - cbn in E. injection E as <- <-. exists []. split; [by rewrite app_nil_r | constructor].
  - cbn [collect_decisions] in E. unfold mbind at 1, M_bind at 1 in E.
    destruct (cm !! name a) as [rc|] eqn:Hrc; [| discriminate].
    cbn [mret M_ret] in E.
    unfold mbind at 1, M_bind at 1 in E.
    destruct (review_action a rc _ w) as [[d|e] w1] eqn:Hrev; [| discriminate].
    unfold mbind at 1, M_bind at 1 in E.
    destruct (audit_logger cfg) as [logger|] eqn:Hal.
    + destruct (AuditLogger.log_review logger a d _ _ _ w1) as [[[]|e] w2] eqn:Hlog;
        [| discriminate].
      apply IH in E as (ds' & -> & Hsol).
      exists (d :: ds'). split; [by rewrite <- app_assoc|].
      econstructor; eauto. unfold logged. by rewrite Hal.
    + cbn [mret M_ret] in E.
      apply IH in E as (ds' & -> & Hsol).
      exists (d :: ds'). split; [by rewrite <- app_assoc|].
      econstructor; eauto. unfold logged. by rewrite Hal.
Qed.

Lemma handle_interrupt_run cfg tid max it iv st :
  handle_interrupt cfg tid max it iv st =
  match collect_decisions cfg tid it (config_map (review_configs iv))
          (action_requests iv) [] (banner max it (the_world st)) with
  | (Ok ds, w') =>
      invoke (the_agent cfg) (CommandResume ds) (RunConfig tid) (Session (calls st) w')
  | (Raise e, w') => (Raise e, Session (calls st) w')
  end.
Proof.
  destruct st as [log w]. destruct w as [h inp o f t0 nw ed].
  unfold handle_interrupt, banner.
  unfold mbind, M_bind, lift, print, modify. cbn -[times collect_decisions nl].
  rewrite <- !app_assoc. cbn [app].
  destruct (collect_decisions _ _ _ _ _ _ _) as [[ds|e] w']; reflexivity.
Qed.

Lemma invoke_run a input config st :
  invoke a input config st =
  (Ok (a (calls st).*1 (AgentCall input config) (the_world st)).1,
   Session (calls st ++ [(AgentCall input config,
                          (a (calls st).*1 (AgentCall input config) (the_world st)).1)])
     (a (calls st).*1 (AgentCall input config) (the_world st)).2).
Proof. unfold invoke. by destruct (a _ _ _). Qed.

Lemma lift_calls {A} (m : IO A) st : calls (lift m st).2 = calls st.
Proof. unfold lift. by destruct (m _). Qed.



(** The run, step by step. *)
Lemma run_agent_with_hitl_run cfg msg tid max st :
  run_agent_with_hitl cfg msg tid max st =
  let first := (invoke (the_agent cfg) (Messages msg) (RunConfig tid) st) in
  match first with
  | (Ok r0, st0) =>
      match hitl_loop (Z.to_nat max) cfg tid max 0 r0 st0 with
      | (Ok (iteration, result), st1) =>
          if (max <=? iteration)%Z
          then (Ok result,
                Session (calls st1)
                  (set_stdout (stdout (the_world st1) ++ [warning max]) (the_world st1)))
          else (Ok result, st1)
      | (Raise e, st1) => (Raise e, st1)
      end
  | (Raise e, st0) => (Raise e, st0)
  end.
Proof.
  unfold run_agent_with_hitl. cbv zeta.
  unfold mbind at 1, M_bind at 1.
  destruct (invoke _ _ _ st) as [[r0|e] st0]; [| reflexivity].
  unfold mbind at 1, M_bind at 1.
  destruct (hitl_loop _ _ _ _ _ _ _) as [[[iteration result]|e] st1]; [| reflexivity].
  unfold mbind, M_bind.
  destruct (max <=? iteration)%Z; [| reflexivity].
  destruct st1 as [log w1]. reflexivity.
Qed.









(** The loop never makes more passes than its fuel. *)
Lemma hitl_loop_calls_bound cfg tid max fuel : forall iteration result st,
  (length (calls (hitl_loop fuel cfg tid max iteration result st).2)
   <= length (calls st) + fuel)%nat.
Proof.
  induction fuel as [|fuel IH]; intros iteration result st; cbn [hitl_loop];
    destruct (pending result) as [iv|]; try (cbn; lia);
    destruct (iteration <? max)%Z; try (cbn; lia).
  unfold mbind, M_bind. rewrite handle_interrupt_run.
  destruct (collect_decisions _ _ _ _ _ _ _) as [[ds|e] w']; [| cbn; lia].
  rewrite invoke_run. etrans; [apply IH|]. cbn [calls]. rewrite length_app. cbn. lia.
Qed.



End loop.

(** The decisions of a batch answer its action requests one for one. *)
Lemma solicited_pointwise `{PyRuntime} cfg tid it cm actions w ds w' :
  solicited cfg tid it cm actions w ds w' ->
  Forall2 (fun a d => exists rc w1 w2,
             cm !! name a = Some rc /\
             @review_action (review_interface cfg) a rc
               (Some (review_context it tid)) w1 = (Ok d, w2))
    actions ds.
Proof.
  induction 1 as [|a rest rc d ds w w1 w2 w3 Hrc Hrev _ _ IH]; constructor; [| exact IH].
  by exists rc, w, w1.
Qed.

Section loop_concrete.
#[local] Existing Instance MiniRuntime.runtime.

(** A batch of three distinct actions: the resume carries three
  decisions, the i-th for the i-th action request. *)
Example three_actions_three_decisions :
run_agent_with_hitl
  (Fixtures.config_with (Fixtures.pause_once ["write_todos"; "task"; "write_file"])
     Fixtures.EchoInterface None)
  "Test" "test_001" 10 (Session [] (Fixtures.world0 ∅ []))
= (Ok Fixtures.done,
   Session
     [(AgentCall (Messages "Test") (RunConfig "test_001"),
       Fixtures.paused ["write_todos"; "task"; "write_file"]);
      (AgentCall
         (CommandResume [Decision "write_todos" None; Decision "task" None;
                         Decision "write_file" None])
         (RunConfig "test_001"),
       Fixtures.done)]
     (banner 10 1 (Fixtures.world0 ∅ []))).
Proof. vm_compute. reflexivity. Qed.





(** With no pass allowed the same batch is not taken up: the run
  returns it and prints the warning. *)
Example drifted_batch_not_taken_up :
(run_agent_with_hitl
   (Fixtures.config_with Fixtures.drifted (AutoApproveInterface false) None)
   "Test" "test_001" 0 (Session [] (Fixtures.world0 ∅ []))).1
= Ok (Fixtures.drifted [] (AgentCall (Messages "Test") (RunConfig "test_001"))
        (Fixtures.world0 ∅ [])).1.
Proof. vm_compute. reflexivity. Qed.

End loop_concrete.

Lemma terminal_only_preorder : PreOrder terminal_only.
Proof.
  split.
  - by intros w.
  - intros w1 w2 w3 (?&?&?&?&?) (?&?&?&?&?). repeat split; congruence.
Qed.

Lemma objects_kept_preorder : PreOrder objects_kept.
Proof.
  split.
  - intros w. unfold objects_kept. reflexivity.
  - intros w1 w2 w3. unfold objects_kept. intros ??. by etrans.
Qed.

#[local] Existing Instance terminal_only_preorder.
#[local] Existing Instance objects_kept_preorder.

Lemma terminal_only_objects_kept w w' : terminal_only w w' -> objects_kept w w'.
Proof. intros (Hh & _). unfold objects_kept. by rewrite Hh. Qed.

Section keeps.
Context (R : world -> world -> Prop) `{!PreOrder R}.

Lemma keeps_bind {A B} (m : IO A) (f : A -> IO B) :
  keeps R m -> (forall x, keeps R (f x)) -> keeps R (m ≫= f).
Proof.
  intros Hm Hf w. unfold mbind, M_bind. specialize (Hm w).
  destruct (m w) as [[x|e] w1]; [| exact Hm]. etrans; [exact Hm | apply Hf].
Qed.

Lemma keeps_fmap {A B} (m : IO A) (f : A -> B) : keeps R m -> keeps R (f <$> m).
Proof.
  intros Hm w. unfold fmap, M_fmap. specialize (Hm w). by destruct (m w) as [[x|e] w1].
Qed.

Lemma keeps_ret {A} (a : A) : keeps R (mret a).
Proof. by intros w. Qed.

Lemma keeps_throw {A} (e : exn) : keeps R (mthrow e : IO A).
Proof. by intros w. Qed.

Lemma keeps_try {A} (m : IO A) handles h :
  keeps R m -> (forall e, keeps R (h e)) -> keeps R (try_except m handles h).
Proof.
  intros Hm Hh w. unfold try_except. specialize (Hm w).
  destruct (m w) as [[x|e] w1]; [exact Hm|].
  destruct (handles e); [| exact Hm]. etrans; [exact Hm | apply Hh].
Qed.

Lemma keeps_weaken {A} (R' : world -> world -> Prop) (m : IO A) :
  (forall w w', R' w w' -> R w w') -> keeps R' m -> keeps R m.
Proof. intros HR Hm w. apply HR, Hm. Qed.
End keeps.

(** The primitives that touch the terminal only. *)
Lemma print_terminal s : keeps terminal_only (print s).
Proof. by intros w. Qed.

Lemma input_terminal prompt : keeps terminal_only (input prompt).
Proof. intros w. unfold input. cbn. by destruct (stdin w) as [|[] ?]. Qed.

Lemma get_terminal : keeps terminal_only (get : IO world).
Proof. by intros w. Qed.

Lemma getitem_terminal v k : keeps terminal_only (getitem v k).
Proof.
  intros w. unfold getitem. destruct v; try done.
  destruct (heap w !! l) as [[]|]; try done. by destruct (assoc k entries).
Qed.

Lemma dict_get_terminal v k d : keeps terminal_only (dict_get v k d).
Proof.
  intros w. unfold dict_get. destruct v; try done. by destruct (heap w !! l) as [[]|].
Qed.

Lemma py_len_terminal v : keeps terminal_only (py_len v).
Proof.
  intros w. unfold py_len. destruct v; try done. by destruct (heap w !! l) as [[]|].
Qed.

Lemma py_iter_terminal v : keeps terminal_only (py_iter v).
Proof.
  intros w. unfold py_iter. destruct v; try done. by destruct (heap w !! l) as [[]|].
Qed.

Lemma int_of_input_terminal `{PyRuntime} s : keeps terminal_only (int_of_input s).
Proof. intros w. unfold int_of_input. by destruct (py_int s). Qed.

Lemma alloc_objects_kept o : keeps objects_kept (alloc o).
Proof.
  intros w. unfold alloc, objects_kept. cbn.
  apply insert_subseteq, not_elem_of_dom, is_fresh.
Qed.

(** Induction on JSON trees. *)
Lemma json_induction (P : json -> Prop) :
  P JNull -> (forall b, P (JBool b)) -> (forall z, P (JInt z)) ->
  (forall r, P (JFloat r)) -> (forall s, P (JStr s)) ->
  (forall items, Forall P items -> P (JArr items)) ->
  (forall members, Forall (fun kv => P kv.2) members -> P (JObj members)) ->
  forall j, P j.
Proof.
  intros Hnull Hbool Hint Hfloat Hstr Harr Hobj.
  refine (fix IH (j : json) : P j :=
    match j with
    | JNull => Hnull
    | JBool b => Hbool b
    | JInt z => Hint z
    | JFloat r => Hfloat r
    | JStr s => Hstr s
    | JArr items =>
        Harr items ((fix go (l : list json) : Forall P l :=
                       match l with
                       | [] => List.Forall_nil _
                       | x :: l' => @List.Forall_cons _ P x l' (IH x) (go l')
                       end) items)
    | JObj members =>
        Hobj members ((fix go (l : list (string * json)) : Forall (fun kv => P kv.2) l :=
                         match l with
                         | [] => List.Forall_nil _
                         | kv :: l' => @List.Forall_cons _ (fun kv => P kv.2) kv l' (IH kv.2) (go l')
                         end) members)
    end).
Qed.

Lemma from_json_JArr items h :
  from_json (JArr items) h =
  let '(vs, h1) := from_json_items items h in
  (PRef (fresh (dom h1)), <[fresh (dom h1) := OList vs]> h1).
Proof. reflexivity. Qed.

Lemma from_json_JObj members h :
  from_json (JObj members) h =
  let '(kvs, h1) := from_json_members members [] h in
  (PRef (fresh (dom h1)), <[fresh (dom h1) := ODict kvs]> h1).
Proof. reflexivity. Qed.

(** [json.loads] builds its value from fresh objects: what was in the
    heap stays as it was. *)
Lemma from_json_extends j : forall h, h ⊆ (from_json j h).2.
Proof.
  induction j as [| | | | |items IH|members IH] using json_induction; intros h; try done.
  - rewrite from_json_JArr.
    assert (Hitems : forall h, h ⊆ (from_json_items items h).2).
    { clear h. induction IH as [|j items Hj _ IHitems]; intros h; [done|].
      cbn [from_json_items]. specialize (Hj h). destruct (from_json j h) as [v h1].
      specialize (IHitems h1). destruct (from_json_items items h1) as [vs h2].
      cbn in *. by etrans. }
    specialize (Hitems h). destruct (from_json_items items h) as [vs h1]. cbn in *.
    etrans; [exact Hitems|]. apply insert_subseteq, not_elem_of_dom, is_fresh.
  - rewrite from_json_JObj.
    assert (Hms : forall acc h, h ⊆ (from_json_members members acc h).2).
    { clear h. induction IH as [|[k j] members Hj _ IHms]; intros acc h; [done|].
      cbn [from_json_members]. cbn in Hj. specialize (Hj h).
      destruct (from_json j h) as [v h1]. cbn in Hj.
      etrans; [exact Hj | apply IHms]. }
    specialize (Hms [] h). destruct (from_json_members members [] h) as [kvs h1]. cbn in *.
    etrans; [exact Hms|]. apply insert_subseteq, not_elem_of_dom, is_fresh.
Qed.

Lemma load_value_objects_kept j : keeps objects_kept (load_value j).
Proof.
  intros w. unfold load_value, objects_kept.
  pose proof (from_json_extends j (heap w)) as Hext.
  by destruct (from_json j (heap w)) as [v h'].
Qed.

(** A value reads as the same JSON tree in any heap that keeps the
    objects of the one it was read in. *)
Lemma to_json_aux_mono fuel : forall fuel' h h' inside v j,
  to_json_aux fuel h inside v = Some j ->
  h ⊆ h' -> (fuel <= fuel')%nat ->
  to_json_aux fuel' h' inside v = Some j.
Proof.
  induction fuel as [|fuel IH]; intros fuel' h h' inside v j E Hsub Hle;
    destruct v; try (destruct fuel'; exact E); try discriminate.
  destruct fuel' as [|fuel']; [lia|]. cbn [to_json_aux] in E |- *.
  destruct (bool_decide (l ∈ inside)); [discriminate|].
  destruct (h !! l) as [o|] eqn:Hl; [| discriminate].
  rewrite (lookup_weaken _ _ _ _ Hl Hsub).
  destruct o as [xs|kvs].
  - destruct (mapM (to_json_aux fuel h (l :: inside)) xs) as [js|] eqn:Exs; [| discriminate].
    apply mapM_Some_1 in Exs.
    erewrite mapM_Some_2; [exact E|].
    eapply Forall2_impl; [exact Exs|]. intros x y Hxy.
    apply (IH fuel' h h' _ x y Hxy Hsub). lia.
  - destruct (mapM (fun kv => pair kv.1 <$> to_json_aux fuel h (l :: inside) kv.2) kvs)
      as [ms|] eqn:Ekvs; [| discriminate].
    apply mapM_Some_1 in Ekvs.
    erewrite mapM_Some_2; [exact E|].
    eapply Forall2_impl; [exact Ekvs|]. intros x y Hxy. cbn in Hxy |- *.
    destruct (to_json_aux fuel h (l :: inside) x.2) as [jx|] eqn:Ex; [| discriminate].
    rewrite (IH fuel' h h' _ x.2 jx Ex Hsub) by lia. exact Hxy.
Qed.

Lemma to_json_kept h h' v j :
  to_json h v = Some j -> h ⊆ h' -> to_json h' v = Some j.
Proof.
  unfold to_json. intros E Hsub. eapply to_json_aux_mono; eauto.
  apply le_n_S. by apply map_subseteq_size.
Qed.

Ltac terminal_prim :=
  lazymatch goal with
  | |- keeps _ (print _) => apply print_terminal
  | |- keeps _ (input _) => apply input_terminal
  | |- keeps _ get => apply get_terminal
  | |- keeps _ (getitem _ _) => apply getitem_terminal
  | |- keeps _ (dict_get _ _ _) => apply dict_get_terminal
  | |- keeps _ (py_len _) => apply py_len_terminal
  | |- keeps _ (py_iter _) => apply py_iter_terminal
  | |- keeps _ (int_of_input _) => apply int_of_input_terminal
  end.

Ltac keeps_split R :=
  lazymatch goal with
  | |- keeps _ (mbind _ _) => apply (keeps_bind R); [| intros]
  | |- keeps _ (fmap _ _) => apply (keeps_fmap R)
  | |- keeps _ (mret _) => apply (keeps_ret R)
  | |- keeps _ (mthrow _) => apply (keeps_throw R)
  | |- keeps _ (try_except _ _ _) => apply (keeps_try R); [| intros]
  | |- keeps _ (if ?b then _ else _) => destruct b
  | |- keeps _ (match ?x with _ => _ end) => destruct x
  end.

Lemma keeps_objects_of_terminal {A} (m : IO A) :
  keeps terminal_only m -> keeps objects_kept m.
Proof. apply keeps_weaken, terminal_only_objects_kept. Qed.

Lemma write_file_objects_kept p c : keeps objects_kept (write_file p c).
Proof. intros w. unfold objects_kept. reflexivity. Qed.

Lemma read_file_objects_kept p : keeps objects_kept (read_file p).
Proof. intros w. unfold read_file, objects_kept. by destruct (files w !! p). Qed.

Section cli_keeps.
Context `{PyRuntime}.
Import CLIReviewInterface.

Lemma str_of_terminal v : keeps terminal_only (str_of v).
Proof. by intros w. Qed.

Lemma print_json_terminal v : keeps terminal_only (print_json v).
Proof.
  intros w. unfold print_json, mbind, M_bind, get.
  by destruct (to_json (heap w) v).
Qed.

Lemma input_until_eof_terminal : keeps terminal_only input_until_eof.
Proof. intros w. unfold input_until_eof. by destruct (read_lines (stdin w)). Qed.

Lemma show_context_terminal ctx : keeps terminal_only (show_context ctx).
Proof.
  unfold show_context. destruct ctx as [[|kv ctx]|]; try apply (keeps_ret terminal_only).
  repeat first
    [ lazymatch goal with |- keeps _ (str_of _) => apply str_of_terminal end
    | keeps_split terminal_only | terminal_prim ].
Qed.

Lemma os_system_editor_objects_kept p : keeps objects_kept (os_system_editor p).
Proof. intros w. unfold objects_kept. reflexivity. Qed.

Lemma slice_to_objects_kept n v : keeps objects_kept (slice_to n v).
Proof.
  intros w. unfold slice_to. destruct v; try reflexivity.
  destruct (heap w !! l) as [[]|]; try reflexivity. apply alloc_objects_kept.
Qed.

Ltac cli_terminal_prim :=
  lazymatch goal with
  | |- keeps _ (str_of _) => apply str_of_terminal
  | |- keeps _ (print_json _) => apply print_json_terminal
  | |- keeps _ input_until_eof => apply input_until_eof_terminal
  | |- keeps _ (show_context _) => apply show_context_terminal
  | |- _ => terminal_prim
  end.

Ltac objects_prim :=
  lazymatch goal with
  | |- keeps _ (alloc _) => apply alloc_objects_kept
  | |- keeps _ (new_dict _) => apply alloc_objects_kept
  | |- keeps _ (new_list _) => apply alloc_objects_kept
  | |- keeps _ (load_value _) => apply load_value_objects_kept
  | |- keeps _ (write_file _ _) => apply write_file_objects_kept
  | |- keeps _ (read_file _) => apply read_file_objects_kept
  | |- keeps _ (os_system_editor _) => apply os_system_editor_objects_kept
  | |- keeps _ (slice_to _ _) => apply slice_to_objects_kept
  | |- _ => apply keeps_objects_of_terminal; cli_terminal_prim
  end.

Ltac keeps_objects := repeat first [keeps_split objects_kept | objects_prim].

Lemma _edit_generic_objects_kept a : keeps objects_kept (_edit_generic a).
Proof. unfold _edit_generic. cbv zeta. keeps_objects. Qed.

Lemma _edit_task_objects_kept a : keeps objects_kept (_edit_task a).
Proof.
  unfold _edit_task. cbv zeta.
  repeat first
    [ lazymatch goal with
      | |- keeps _ (_edit_generic _) => apply _edit_generic_objects_kept
      end
    | keeps_split objects_kept | objects_prim ].
Qed.

Lemma _edit_file_objects_kept a : keeps objects_kept (_edit_file a).
Proof.
  unfold _edit_file. cbv zeta.
  repeat first
    [ lazymatch goal with
      | |- keeps _ (_edit_generic _) => apply _edit_generic_objects_kept
      end
    | keeps_split objects_kept | objects_prim ].
Qed.
Lemma _handle_edit_objects_kept a :
  name a <> "write_todos" -> keeps objects_kept (_handle_edit a).
Proof.
  intros Hn. unfold _handle_edit. cbv zeta.
  do 3 (apply (keeps_bind objects_kept); [objects_prim | intros]).
  destruct (String.eqb_spec (name a) "write_todos"); [done|].
  destruct (String.eqb (name a) "task"); [apply _edit_task_objects_kept|].
  destruct (String.eqb (name a) "write_file"); [apply _edit_file_objects_kept|].
  apply _edit_generic_objects_kept.
Qed.

(** One round of the loop keeps [R] when the edit mode does (or is
    not allowed) and the next round does. *)
Lemma ask_keeps (R : world -> world -> Prop) `{!PreOrder R} a allowed options again :
  (forall w w', terminal_only w w' -> R w w') ->
  (str_in "edit" allowed = true -> keeps R (_handle_edit a)) ->
  keeps R again ->
  keeps R (ask a allowed options again).
Proof.
  intros HR Hedit Hagain. unfold ask.
  assert (Hprint : forall s, keeps R (print s)).
  { intros s. eapply keeps_weaken; [exact HR | apply print_terminal]. }
  apply (keeps_bind R).
  { eapply keeps_weaken; [exact HR|]. apply (keeps_fmap terminal_only), input_terminal. }
  intros choice.
  destruct (String.eqb choice "1" && str_in "approve" allowed).
  { apply (keeps_bind R); [apply Hprint | intros; apply (keeps_ret R)]. }
  destruct (str_in "edit" allowed) eqn:He.
  - destruct (String.eqb choice "2" && true); [by apply Hedit|].
    destruct (String.eqb choice "3" && str_in "reject" allowed).
    + apply (keeps_bind R); [apply Hprint | intros; apply (keeps_ret R)].
    + apply (keeps_bind R); [apply Hprint | intros; exact Hagain].
  - rewrite andb_false_r.
    destruct (String.eqb choice "3" && str_in "reject" allowed).
    + apply (keeps_bind R); [apply Hprint | intros; apply (keeps_ret R)].
    + apply (keeps_bind R); [apply Hprint | intros; exact Hagain].
Qed.

Lemma ask_loop_keeps (R : world -> world -> Prop) `{!PreOrder R} a allowed options inp :
  (forall w w', terminal_only w w' -> R w w') ->
  (str_in "edit" allowed = true -> keeps R (_handle_edit a)) ->
  keeps R (ask_loop a allowed options inp).
Proof.
  intros HR Hedit. induction inp as [|ev inp IH]; cbn [ask_loop];
    apply ask_keeps; auto. apply (keeps_throw R).
Qed.

Lemma review_action_keeps (R : world -> world -> Prop) `{!PreOrder R} a rc ctx :
  (forall w w', terminal_only w w' -> R w w') ->
  (str_in "edit" (default ["approve"; "edit"; "reject"] (allowed_decisions rc)) = true ->
   keeps R (_handle_edit a)) ->
  keeps R (CLIReviewInterface.review_action a rc ctx).
Proof.
  intros HR Hedit. unfold CLIReviewInterface.review_action. cbv zeta.
  assert (Hterm : forall A (m : IO A), keeps terminal_only m -> keeps R m).
  { intros A m. by apply keeps_weaken. }
  repeat first
    [ apply Hterm;
        cli_terminal_prim
    | apply (keeps_bind R); [| intros]
    | apply (keeps_ret R)
    | match goal with |- keeps _ (if ?b then _ else _) => destruct b end ].
  all: intros w; apply (ask_loop_keeps R); auto.
Qed.

(** X2: when the configuration does not allow edit, a review reads
    from and prints to the terminal and does nothing else, whether it
    returns or raises. *)
Theorem review_without_edit_is_terminal_only a rc ctx w :
  "edit" ∉ default ["approve"; "edit"; "reject"] (allowed_decisions rc) ->
  terminal_only w (CLIReviewInterface.review_action a rc ctx w).2.
Proof.
  intros Hno. apply (review_action_keeps terminal_only); [done|].
  unfold str_in. intros He. apply bool_decide_eq_true in He. contradiction.
Qed.

(** X3: the review of an action other than [write_todos] changes no
    object that exists, whether it returns or raises: every value
    reads as the same JSON tree afterwards. *)
Theorem review_keeps_objects a rc ctx w :
  name a <> "write_todos" ->
  heap w ⊆ heap (CLIReviewInterface.review_action a rc ctx w).2 /\
  forall v j, to_json (heap w) v = Some j ->
    to_json (heap (CLIReviewInterface.review_action a rc ctx w).2) v = Some j.
Proof.
  intros Hn.
  assert (Hk : objects_kept w (CLIReviewInterface.review_action a rc ctx w).2).
  { apply (review_action_keeps objects_kept).
    - apply terminal_only_objects_kept.
    - intros _. by apply _handle_edit_objects_kept. }
  split; [exact Hk|]. intros v j E. eapply to_json_kept; eauto.
Qed.
End cli_keeps.



Lemma returns_only_bind {A B} (Q : B -> Prop) (m : IO A) (f : A -> IO B) :
  (forall x, returns_only Q (f x)) -> returns_only Q (m ≫= f).
Proof.
  intros Hf w b w' E. unfold mbind, M_bind in E.
  destruct (m w) as [[x|e] w1]; [| discriminate]. by eapply Hf.
Qed.

Lemma returns_only_ret {A} (Q : A -> Prop) (a : A) : Q a -> returns_only Q (mret a).
Proof. intros Ha w b w' E. by injection E as <- _. Qed.

Lemma returns_only_throw {A} (Q : A -> Prop) (e : exn) : returns_only Q (mthrow e).
Proof. intros w b w' E. discriminate. Qed.

Lemma returns_only_try {A} (Q : A -> Prop) (m : IO A) handles h :
  returns_only Q m -> (forall e, returns_only Q (h e)) ->
  returns_only Q (try_except m handles h).
Proof.
  intros Hm Hh w b w' E. unfold try_except in E.
  destruct (m w) as [[x|e] w1] eqn:Em.
  - injection E as <- <-. by eapply Hm.
  - destruct (handles e); [by eapply Hh | discriminate].
Qed.

Ltac returns_only_step :=
  lazymatch goal with
  | |- returns_only _ (mbind _ _) => apply returns_only_bind; intros
  | |- returns_only _ (mthrow _) => apply returns_only_throw
  | |- returns_only _ (try_except _ _ _) => apply returns_only_try; intros
  | |- returns_only _ (if ?b then _ else _) => destruct b
  | |- returns_only _ (match ?x with _ => _ end) => destruct x
  end.

Section cli.
Context `{PyRuntime}.
Import CLIReviewInterface.

Lemma _edit_generic_returns a : returns_only (edit_or_reject a) (_edit_generic a).
Proof.
  unfold _edit_generic. repeat returns_only_step.
  - apply returns_only_ret. right. by eexists.
  - apply returns_only_ret. by left.
Qed.

Lemma _edit_todos_returns a :
  name a = "write_todos" -> returns_only (edit_or_reject a) (_edit_todos a).
Proof.
  intros Hn. unfold _edit_todos. cbv zeta.
  repeat first
    [ lazymatch goal with
      | |- returns_only _ (_edit_generic _) => apply _edit_generic_returns
      end
    | returns_only_step ];
    apply returns_only_ret; first [by left | right; rewrite Hn; by eexists].
Qed.

Lemma _edit_task_returns a :
  name a = "task" -> returns_only (edit_or_reject a) (_edit_task a).
Proof.
  intros Hn. unfold _edit_task. cbv zeta.
  repeat first
    [ lazymatch goal with
      | |- returns_only _ (_edit_generic _) => apply _edit_generic_returns
      end
    | returns_only_step ];
    apply returns_only_ret; first [by left | right; rewrite Hn; by eexists].
Qed.

Lemma _edit_file_returns a :
  name a = "write_file" -> returns_only (edit_or_reject a) (_edit_file a).
Proof.
  intros Hn. unfold _edit_file. cbv zeta.
  repeat first
    [ lazymatch goal with
      | |- returns_only _ (_edit_generic _) => apply _edit_generic_returns
      end
    | returns_only_step ];
    apply returns_only_ret; first [by left | right; rewrite Hn; by eexists].
Qed.

Lemma _handle_edit_returns a : returns_only (edit_or_reject a) (_handle_edit a).
Proof.
  unfold _handle_edit. cbv zeta.
  do 3 (apply returns_only_bind; intros).
  destruct (String.eqb_spec (name a) "write_todos"); [by apply _edit_todos_returns|].
  destruct (String.eqb_spec (name a) "task"); [by apply _edit_task_returns|].
  destruct (String.eqb_spec (name a) "write_file"); [by apply _edit_file_returns|].
  apply _edit_generic_returns.
Qed.

Lemma ask_returns a allowed options again :
  returns_only (decision_within allowed a) again ->
  returns_only (decision_within allowed a) (ask a allowed options again).
Proof.
  intros Hagain. unfold ask. apply returns_only_bind; intros choice.
  unfold str_in.
  destruct (String.eqb choice "1"); cbn [andb].
  { destruct (bool_decide_reflect ("approve" ∈ allowed)) as [Hin|_].
    - apply returns_only_bind; intros. apply returns_only_ret. by left.
    - destruct (String.eqb choice "2"); cbn [andb].
      + destruct (bool_decide_reflect ("edit" ∈ allowed)) as [Hin|_].
        * intros w d w' E. apply _handle_edit_returns in E as [->|[ea ->]].
          -- right; left. auto.
          -- right; right. eauto.
        * destruct (String.eqb choice "3"); cbn [andb].
          -- destruct (bool_decide_reflect ("reject" ∈ allowed)) as [Hin|_].
             ++ apply returns_only_bind; intros. apply returns_only_ret. right; left. auto.
             ++ by apply returns_only_bind.
          -- by apply returns_only_bind.
      + destruct (String.eqb choice "3"); cbn [andb].
        * destruct (bool_decide_reflect ("reject" ∈ allowed)) as [Hin|_].
          -- apply returns_only_bind; intros. apply returns_only_ret. right; left. auto.
          -- by apply returns_only_bind.
        * by apply returns_only_bind. }
  destruct (String.eqb choice "2"); cbn [andb].
  { destruct (bool_decide_reflect ("edit" ∈ allowed)) as [Hin|_].
    - intros w d w' E. apply _handle_edit_returns in E as [->|[ea ->]].
      + right; left. auto.
      + right; right. eauto.
    - destruct (String.eqb choice "3"); cbn [andb].
      + destruct (bool_decide_reflect ("reject" ∈ allowed)) as [Hin|_].
        * apply returns_only_bind; intros. apply returns_only_ret. right; left. auto.
        * by apply returns_only_bind.
      + by apply returns_only_bind. }
  destruct (String.eqb choice "3"); cbn [andb].
  - destruct (bool_decide_reflect ("reject" ∈ allowed)) as [Hin|_].
    + apply returns_only_bind; intros. apply returns_only_ret. right; left. auto.
    + by apply returns_only_bind.
  - by apply returns_only_bind.
Qed.

Lemma ask_loop_returns a allowed options inp :
  returns_only (decision_within allowed a) (ask_loop a allowed options inp).
Proof.
  induction inp as [|ev inp IH]; cbn [ask_loop]; apply ask_returns;
    [apply returns_only_throw | exact IH].
Qed.

(** X1: a decision the interactive review returns is one its
    configuration allows, or a reject that comes out of the edit mode
    (which only edit being allowed is enough to enter); an edit keeps
    the kind of the action it was given. *)
Theorem review_decision_within_allowed a rc ctx w d w' :
  CLIReviewInterface.review_action a rc ctx w = (Ok d, w') ->
  decision_within (allowed_of rc) a d.
Proof.
  revert w d w'. change (returns_only (decision_within (allowed_of rc) a)
                           (CLIReviewInterface.review_action a rc ctx)).
  unfold CLIReviewInterface.review_action. cbv zeta.
  repeat (apply returns_only_bind; intros).
  apply ask_loop_returns.
Qed.
End cli.






Section reprompt.
Context `{PyRuntime}.
Import CLIReviewInterface.












End reprompt.

(** ** What the editing sub-menus build *)

Section edit_flows.
Context `{PyRuntime}.
Import CLIReviewInterface.







End edit_flows.

(** ** More on the audit log *)

Lemma count_lookup k k' (d : gmap pykey Z) :
  AuditLogger.count k d !! k'
  = if decide (k = k') then Some (default 0 (d !! k) + 1) else d !! k'.
Proof.
  unfold AuditLogger.count. destruct (decide (k = k')) as [->|Hne].
  - by rewrite lookup_insert_eq.
  - by rewrite lookup_insert_ne.
Qed.

Lemma tally_lookup ks : forall d k,
  tally ks d !! k
  = let n := Z.of_nat (length (filter (fun k' => k' = k) ks)) in
    if (n =? 0)%Z then d !! k else Some (default 0 (d !! k) + n).
Proof.
  induction ks as [|k0 ks IH]; intros d k; [reflexivity|].
  cbn [tally]. rewrite IH. cbv zeta. rewrite count_lookup, filter_cons.
  destruct (decide (k0 = k)) as [->|Hne]; [| reflexivity].
  cbn [length default].
  generalize (length (filter (fun k' => k' = k) ks)). intros n.
  destruct (Z.eqb_spec (Z.of_nat (S n)) 0) as [|_]; [lia|].
  destruct (Z.eqb_spec (Z.of_nat n) 0) as [E|E].
  - f_equal. lia.
  - f_equal. unfold id. lia.
Qed.

Lemma filter_fmap_length {A B} (f : A -> B) `{EqDecision B} (b : B) (l : list A) :
  length (filter (fun y => y = b) (f <$> l)) = length (filter (fun x => f x = b) l).
Proof.
  induction l as [|x l IH]; [reflexivity|].
  rewrite fmap_cons, !filter_cons. destruct (decide (f x = b)); cbn; by rewrite IH.
Qed.

Section audit_more.
Context `{PyRuntime}.
Import AuditLogger.

(** The aggregate after counting the lines of a series of logged
    entries, count by count. *)
Lemma count_lines_tally w0 es : forall rs k stats w,
  length es = length rs ->
  (forall i r, rs !! i = Some r -> entry_of w0 (k + i) r = es !! i) ->
  (forall e, e ∈ es -> json_loads (line_of e) = Some e) ->
  count_lines stats (line_of <$> es) w
  = (Ok (ReviewStats (total_reviews stats + Z.of_nat (length rs))
           (tally ((fun r => KStr (type (rr_decision r))) <$> rs) (by_decision stats))
           (tally ((fun r => KStr (name (rr_action r))) <$> rs) (by_tool stats))
           (tally ((fun r => KStr (rr_reviewer r)) <$> rs) (by_reviewer stats))), w).
Proof.
  induction es as [|e es IH]; intros rs k stats w Hlen Hes Hload.
  - destruct rs; [| discriminate]. cbn. rewrite Z.add_0_r. by destruct stats.
  - destruct rs as [|r rs]; [discriminate|].
    rewrite fmap_cons. cbn [count_lines].
    pose proof (Hes 0%nat r eq_refl) as He. cbn in He.
    erewrite bind_Ok; cycle 1.
    { eapply count_line_entry; [exact He|]. apply Hload. by left. }
    rewrite (IH rs (S k)).
    + rewrite !fmap_cons. cbn [tally total_reviews by_decision by_tool by_reviewer length].
      do 2 f_equal. f_equal. lia.
    + cbn in Hlen. lia.
    + intros i r' Hr'. pose proof (Hes (S i) r' Hr') as Hx.
      change ((e :: es) !! S i) with (es !! i) in Hx.
      rewrite <- Hx. f_equal. lia.
    + intros e' He'. apply Hload. by right.
Qed.

(** X11: after a series of decisions is logged to an absent store, the
    aggregate counts, for each tool, each decision and each reviewer,
    the logged reviews that have it.  The three decisions approve,
    edit and reject are listed even with a count of zero; any other
    key is listed only when it was counted. *)
Theorem stats_count_each_tool_decision_and_reviewer self rs w w' :
  rs <> [] ->
  files w !! log_file self = None ->
  log_all self rs w = (Ok tt, w') ->
  (forall i r e,
     rs !! i = Some r -> entry_of w i r = Some e ->
     json_loads (json_dumps e +:+ nl) = Some e /\ one_line (json_dumps e) = true) ->
  exists stats,
    get_review_stats self w' = (Ok (Some stats), w') /\
    (forall k,
       by_decision stats !! KStr k
       = if bool_decide (k ∈ ["approve"; "edit"; "reject"])
         then Some (reviews_with (fun r => type (rr_decision r)) k rs)
         else positive (reviews_with (fun r => type (rr_decision r)) k rs)) /\
    (forall k,
       by_tool stats !! KStr k = positive (reviews_with (fun r => name (rr_action r)) k rs)) /\
    (forall k,
       by_reviewer stats !! KStr k = positive (reviews_with rr_reviewer k rs)).
Proof.
  intros Hne Habsent Hlog Hcodec.
  destruct (log_all_run self rs w w' Hlog) as (es & Hlen & Hes & _ & Hfile).
  destruct rs as [|r0 rs0]; [done|]. set (rs := r0 :: rs0) in *.
  rewrite Habsent in Hfile. cbn [default] in Hfile.
  assert (Hall : forall e, e ∈ es ->
            json_loads (line_of e) = Some e /\ one_line (json_dumps e) = true).
  { intros e [i Hi]%list_elem_of_lookup.
    destruct (rs !! i) as [r|] eqn:Hr.
    - apply (Hcodec i r e Hr). by rewrite (Hes i r Hr).
    - apply lookup_ge_None in Hr. apply lookup_lt_Some in Hi. lia. }
  unfold get_review_stats. unfold mbind at 1, M_bind at 1, get at 1.
  rewrite Hfile.
  change ("" +:+ concat_lines es) with (concat_lines es).
  rewrite file_lines_concat by (apply Forall_forall; intros e He; by apply Hall).
  eexists. split.
  { erewrite fmap_Ok; [reflexivity|].
    apply (count_lines_tally w es rs 0%nat stats0 w').
    - exact Hlen.
    - intros i r Hr. by apply Hes.
    - intros e He. by apply Hall. }
  cbn [by_decision by_tool by_reviewer stats0].
  assert (Hfil : forall (f : review_record -> string) k,
            Z.of_nat (length (filter (fun k' => k' = KStr k) ((fun r => KStr (f r)) <$> rs)))
            = reviews_with f k rs).
  { intros f k. unfold reviews_with. f_equal.
    rewrite (filter_fmap_length (fun r => KStr (f r)) (KStr k) rs).
    f_equal. apply list_filter_iff. intros r. split; [by intros [= ->] | by intros ->]. }
  split; [| split]; intros k; rewrite tally_lookup; cbv zeta; rewrite Hfil; unfold positive.
  - destruct (bool_decide_reflect (k ∈ ["approve"; "edit"; "reject"])) as [Hin|Hout].
    + assert (by_decision_start !! KStr k = Some 0) as ->.
      { apply elem_of_cons in Hin as [->|Hin]; [reflexivity|].
        apply elem_of_cons in Hin as [->|Hin]; [reflexivity|].
        apply list_elem_of_singleton in Hin as ->. reflexivity. }
      cbn [default].
      destruct (Z.eqb_spec (reviews_with (fun r => type (rr_decision r)) k rs) 0) as [E|E];
        [by rewrite E | done].
    + assert (by_decision_start !! KStr k = None) as ->; [| done].
      unfold by_decision_start. apply not_elem_of_list_to_map_1. cbn.
      intros Hin. apply Hout.
      rewrite !elem_of_cons, elem_of_nil in Hin.
      destruct Hin as [[= <-]|[[= <-]|[[= <-]|[]]]]; rewrite !elem_of_cons; auto.
  - rewrite lookup_empty. cbn [default]. done.
  - rewrite lookup_empty. cbn [default]. done.
Qed.

(** X12: a review whose entry cannot be written as JSON (a value in it
    contains itself) raises [ValueError] after the log has been opened:
    an absent log is left present and empty, and the aggregate read
    from it is the one with every count zero, not the empty dict. *)
Theorem unserializable_review_leaves_an_empty_log self a d reviewer thread_id ctx w :
  files w !! log_file self = None ->
  log_entry (heap w) (now_isoformat w (ticks w)) thread_id reviewer a d ctx = None ->
  let r := log_review self a d reviewer thread_id ctx w in
  r.1 = Raise ValueError /\
  files r.2 !! log_file self = Some "" /\
  heap r.2 = heap w /\
  get_review_stats self w = (Ok None, w) /\
  get_review_stats self r.2 = (Ok (Some stats0), r.2).
Proof.
  intros Habsent Hentry. cbv zeta. rewrite log_review_run, Hentry.
  destruct w as [h inp o f t0 nw ed]. cbn [files] in Habsent.
  cbn [fst snd]. norm_world. rewrite Habsent. cbn [default].
  split; [reflexivity|]. split; [by rewrite lookup_insert_eq|]. split; [reflexivity|].
  unfold get_review_stats, mbind, M_bind, get. norm_world.
  rewrite Habsent, lookup_insert_eq. split; reflexivity.
Qed.

End audit_more.

Section backend_logs.
Context `{PyRuntime}.
Import Backend.

Lemma strip_nl : strip nl = "".
Proof. reflexivity. Qed.

Lemma file_lines_blank n : file_lines "" (times n nl) = replicate n nl.
Proof.
  induction n as [|n IH]; [reflexivity|].
  cbn [times replicate]. change (nl +:+ times n nl) with ("" +:+ nl +:+ times n nl).
  rewrite file_lines_line by reflexivity. by rewrite IH.
Qed.

Lemma file_lines_concat_then es tail :
  Forall (fun e => one_line (json_dumps e) = true) es ->
  file_lines "" (concat_lines es +:+ tail) = ((line_of <$> es) ++ file_lines "" tail)%list.
Proof.
  induction 1 as [|e es He _ IH]; [reflexivity|].
  cbn [concat_lines]. rewrite fmap_cons. unfold line_of at 1.
  rewrite !string_app_assoc, file_lines_line by exact He.
  cbn [app]. f_equal. exact IH.
Qed.

Lemma read_logs_blank n : forall logs w,
  read_logs (replicate n nl) logs w = (Ok logs, w).
Proof.
  induction n as [|n IH]; intros logs w; [reflexivity|].
  cbn [replicate read_logs]. rewrite strip_nl. cbn [String.eqb negb].
  rewrite bind_ret. apply IH.
Qed.

Lemma read_logs_entries es tail : forall logs w,
  Forall (fun e => json_loads (line_of e) = Some e /\ strip (line_of e) <> "") es ->
  read_logs ((line_of <$> es) ++ tail) logs w = read_logs tail (logs ++ es) w.
Proof.
  induction es as [|e es IH]; intros logs w Hes.
  - by rewrite app_nil_r.
  - inversion Hes as [|? ? [Hload Hstrip] Hrest]; subst.
    rewrite fmap_cons. cbn [app read_logs].
    apply String.eqb_neq in Hstrip. rewrite Hstrip, Hload. cbn [negb].
    rewrite bind_ret, IH by exact Hrest. by rewrite <- app_assoc.
Qed.

(** X13: the backend's reader skips blank lines: from a log that holds the
    lines of [es] followed by any number of blank lines it returns the
    number of entries and the last hundred of them, in order.  An
    absent log reads as no entries. *)
Theorem audit_logs_skip_blank_lines audit_file es n w :
  files w !! audit_file = Some (concat_lines es +:+ times n nl) ->
  Forall (fun e => json_loads (json_dumps e +:+ nl) = Some e /\
                   one_line (json_dumps e) = true /\
                   strip (json_dumps e +:+ nl) <> "") es ->
  get_audit_logs audit_file w
  = (Ok (AuditLogs (drop (length es - 100) es) (Z.of_nat (length es))), w).
Proof.
  intros Hfile Hes. unfold get_audit_logs, mbind at 1, M_bind at 1, get at 1.
  rewrite Hfile.
  rewrite file_lines_concat_then, file_lines_blank
    by (eapply Forall_impl; [exact Hes | by intros e (_ & ? & _)]).
  erewrite bind_Ok; cycle 1.
  { rewrite read_logs_entries by (eapply Forall_impl; [exact Hes | by intros e (? & _ & ?)]).
    apply read_logs_blank. }
  reflexivity.
Qed.

End backend_logs.

(** ** More on the control loop *)

(** [config_map] keeps, for each action kind, the last configuration
    the batch lists for it. *)
Lemma config_map_from cfgs k : forall m : gmap string review_config,
  foldl (fun m cfg => <[action_name cfg := cfg]> m) m cfgs !! k
  = match last (filter (fun c => action_name c = k) cfgs) with
    | Some c => Some c
    | None => m !! k
    end.
Proof.
  induction cfgs as [|c cfgs IH]; intros m; [reflexivity|].
  cbn [foldl]. rewrite IH, filter_cons.
  destruct (decide (action_name c = k)) as [<-|Hne].
  - destruct (filter _ cfgs) as [|c' l] eqn:E.
    + cbn. by rewrite lookup_insert_eq.
    + rewrite last_cons_cons. destruct (last (c' :: l)) eqn:El; [done|].
      by apply last_None in El.
  - destruct (last (filter _ cfgs)); [done|]. by rewrite lookup_insert_ne.
Qed.

Section loop_more.
Context `{PyRuntime}.

(** X14: the lookup the loop builds from the review configurations
    of a batch gives, for an action kind, the last configuration
    listed for it. *)
Theorem config_map_last_config_wins cfgs k :
  config_map cfgs !! k = last (filter (fun c => action_name c = k) cfgs).
Proof.
  unfold config_map. rewrite config_map_from, lookup_empty.
  by destruct (last _).
Qed.


(** What the loop returns, when it returns: the result of the last
    call, with the passes it made counted; a result that is still a
    pause only when the count has reached [max_iterations]. *)
Lemma hitl_loop_result cfg tid max fuel : forall iteration result st c it' r' st',
  (Z.to_nat (max - iteration) <= fuel)%nat ->
  last (calls st) = Some (c, result) ->
  hitl_loop fuel cfg tid max iteration result st = (Ok (it', r'), st') ->
  (exists c', last (calls st') = Some (c', r')) /\
  it' = iteration + Z.of_nat (length (calls st') - length (calls st)) /\
  (length (calls st) <= length (calls st'))%nat /\
  (is_Some (pending r') -> max <= it').
Proof.
  induction fuel as [|fuel IH]; intros iteration result st c it' r' st' Hfuel Hlast E.
  - cbn [hitl_loop] in E.
    destruct (pending result) as [iv|] eqn:Hpend.
    + destruct (Z.ltb_spec iteration max); [lia|].
      injection E as <- <- <-. rewrite Nat.sub_diag, Z.add_0_r.
      repeat split; eauto; lia.
    + injection E as <- <- <-. rewrite Nat.sub_diag, Z.add_0_r.
      repeat split; eauto; try lia; try (rewrite Hpend; by intros [? ?]).
  - cbn [hitl_loop] in E.
    destruct (pending result) as [iv|] eqn:Hpend.
    + destruct (Z.ltb_spec iteration max).
      * unfold mbind, M_bind in E. rewrite handle_interrupt_run in E.
        destruct (collect_decisions _ _ _ _ _ _ _) as [[ds|e] w'] eqn:Hcol; [| discriminate].
        rewrite invoke_run in E. cbn [calls the_world] in E.
        eapply IH in E as ([c' Hc'] & Hit & Hlen & Hp).
        -- cbn [calls] in Hit, Hlen. rewrite length_app in Hit, Hlen. cbn in Hit, Hlen.
           repeat split; eauto; lia.
        -- lia.
        -- cbn [calls]. by rewrite last_snoc.
      * injection E as <- <- <-. rewrite Nat.sub_diag, Z.add_0_r.
        repeat split; eauto; lia.
    + injection E as <- <- <-. rewrite Nat.sub_diag, Z.add_0_r.
      repeat split; eauto; try lia; try (rewrite Hpend; by intros [? ?]).
Qed.

(** X16: a run that returns hands back the result of its last call.  With
    [resumes] the calls it made after the first: a result that is
    still a pause is returned only when [resumes] has reached
    [max_iterations]; and whenever it has, the warning is the last
    line printed, also when the agent finished on that very call. *)
Theorem run_returns_the_last_result cfg msg tid max w result st' :
  run_agent_with_hitl cfg msg tid max (Session [] w) = (Ok result, st') ->
  let resumes := Z.of_nat (length (calls st')) - 1 in
  (exists c, last (calls st') = Some (c, result)) /\
  0 <= resumes /\
  (is_Some (pending result) -> max <= resumes) /\
  (max <= resumes -> last (stdout (the_world st')) = Some (warning max)).
Proof.
  rewrite run_agent_with_hitl_run. cbv zeta. rewrite invoke_run.
  cbn [calls the_world fmap list_fmap app].
  set (call := AgentCall (Messages msg) (RunConfig tid)).
  set (first := the_agent cfg [] call w).
  destruct (hitl_loop _ _ _ _ _ _ _) as [[[iteration r]|e] st1] eqn:Hloop; [| discriminate].
  eapply hitl_loop_result in Hloop as ([c Hc] & Hit & Hlen & Hp);
    [| lia | reflexivity].
  cbn [calls length] in Hit, Hlen.
  destruct (Z.leb_spec max iteration); intros E; injection E as <- <-; cbn [calls the_world].
  - split; [eauto|]. split; [lia|]. split; [intros; lia|]. intros _.
    destruct (the_world st1). cbn. apply last_snoc.
  - split; [eauto|]. split; [lia|]. split; [intros Hpend; apply Hp in Hpend; lia|]. lia.
Qed.



(** The run reads the agent, the reviewer, the reviewer's name and the
    logger of its configuration, and nothing else. *)
Lemma collect_decisions_ext cfg cfg' tid it cm actions :
  review_interface cfg = review_interface cfg' ->
  reviewer_name cfg = reviewer_name cfg' ->
  audit_logger cfg = audit_logger cfg' ->
  forall acc w,
    collect_decisions cfg tid it cm actions acc w
    = collect_decisions cfg' tid it cm actions acc w.
Proof.
  intros Hri Hname Hlog. induction actions as [|a actions IH]; intros acc w; [reflexivity|].
  cbn [collect_decisions]. rewrite Hri, Hname, Hlog.
  unfold mbind, M_bind.
  destruct (cm !! name a) as [rc|]; cbn [mret M_ret mthrow M_throw]; [| reflexivity].
  destruct (review_action a rc _ w) as [[d|e] w1]; [| reflexivity].
  destruct (audit_logger cfg') as [logger|].
  - destruct (AuditLogger.log_review _ _ _ _ _ _ _) as [[[]|e] w2]; [| reflexivity].
    apply IH.
  - cbn [mret M_ret]. apply IH.
Qed.

Lemma hitl_loop_ext cfg cfg' tid max fuel :
  the_agent cfg = the_agent cfg' ->
  review_interface cfg = review_interface cfg' ->
  reviewer_name cfg = reviewer_name cfg' ->
  audit_logger cfg = audit_logger cfg' ->
  forall iteration result st,
    hitl_loop fuel cfg tid max iteration result st
    = hitl_loop fuel cfg' tid max iteration result st.
Proof.
  intros Hag Hri Hname Hlog.
  induction fuel as [|fuel IH]; intros iteration result st; [reflexivity|].
  cbn [hitl_loop]. destruct (pending result) as [iv|]; [| reflexivity].
  destruct (iteration <? max)%Z; [| reflexivity].
  unfold mbind, M_bind. rewrite !handle_interrupt_run.
  rewrite (collect_decisions_ext cfg cfg') by assumption.
  destruct (collect_decisions cfg' _ _ _ _ _ _) as [[ds|e] w']; [| reflexivity].
  rewrite Hag. destruct (invoke _ _ _ _) as [[r|e] st1]; [| reflexivity].
  apply IH.
Qed.

(** X18: the approval level handed to [create_agent_with_hitl] has no
    effect on a run: the agent is built from the data room index
    alone, and the loop never reads the level. *)
Theorem approval_level_has_no_effect_on_a_run
    (create_legal_risk_analysis_agent : DataRoom.t -> agent)
    data_room_index level level' ri reviewer enable_audit msg tid max st :
  run_agent_with_hitl
    (create_agent_with_hitl create_legal_risk_analysis_agent data_room_index level
       ri reviewer enable_audit) msg tid max st
  = run_agent_with_hitl
      (create_agent_with_hitl create_legal_risk_analysis_agent data_room_index level'
         ri reviewer enable_audit) msg tid max st.
Proof.
  rewrite !run_agent_with_hitl_run. cbv zeta. cbn [create_agent_with_hitl the_agent].
  destruct (invoke _ _ _ st) as [[r0|e] st0]; [| reflexivity].
  erewrite hitl_loop_ext; reflexivity.
Qed.

(** X19: [AutoApproveInterface] approves every action of a batch that has a
    review configuration, whatever decisions the configuration allows;
    with [log_actions] it prints one line for each, and it does
    nothing else. *)
Theorem auto_approve_approves_every_action log_actions ag level reviewer tid it cm actions :
  Forall (fun a => is_Some (cm !! name a)) actions ->
  forall acc w,
    collect_decisions (AgentConfig ag level (AutoApproveInterface log_actions) reviewer None)
      tid it cm actions acc w
    = (Ok (acc ++ replicate (length actions) approve)%list,
       set_stdout
         (stdout w ++ (if log_actions
                       then (fun a => "[AUTO-APPROVED] " +:+ name a) <$> actions
                       else []))%list w).
Proof.
  induction 1 as [|a actions [rc Hrc] _ IH]; intros acc w.
  - cbn. rewrite !app_nil_r. destruct w, log_actions; cbn; by rewrite app_nil_r.
  - cbn [collect_decisions audit_logger review_interface].
    unfold mbind at 1, M_bind at 1. rewrite Hrc. cbn [mret M_ret].
    destruct w as [h inp o f t0 nw ed].
    destruct log_actions; cbn [review_action AutoApproveInterface].
    + unfold mbind, M_bind, print, modify, mret, M_ret. norm_world.
      rewrite IH. norm_world.
      rewrite fmap_cons. cbn [length replicate]. by rewrite <- !app_assoc.
    + unfold mbind, M_bind, mret, M_ret. norm_world.
      rewrite IH. norm_world.
      cbn [length replicate]. by rewrite <- !app_assoc.
Qed.

(** X20: every decision of a batch is logged: when there is a logger and
    the reviewer leaves the log file alone, the reviews of a batch add
    one line to the log for each action, in order, each the entry of
    the action and of the decision given for it. *)
Theorem decisions_of_a_batch_are_logged cfg logger tid it cm actions :
  audit_logger cfg = Some logger ->
  (forall a rc ctx w d w1,
     @review_action (review_interface cfg) a rc ctx w = (Ok d, w1) ->
     files w1 !! AuditLogger.log_file logger = files w !! AuditLogger.log_file logger) ->
  forall acc w ds w',
    collect_decisions cfg tid it cm actions acc w = (Ok ds, w') ->
    exists ds' es,
      ds = (acc ++ ds')%list /\
      Forall2 (fun ad e => entry_for tid (reviewer_name cfg) ad.1 ad.2 e)
        (zip actions ds') es /\
      length ds' = length actions /\
      default "" (files w' !! AuditLogger.log_file logger)
      = default "" (files w !! AuditLogger.log_file logger) +:+ concat_lines es.
Proof.
  intros Hlogger Hquiet acc w ds w' E.
  apply collect_decisions_solicited in E as (ds' & -> & Hsol).
  exists ds'.
  cut (exists es,
         Forall2 (fun ad e => entry_for tid (reviewer_name cfg) ad.1 ad.2 e)
           (zip actions ds') es /\
         length ds' = length actions /\
         default "" (files w' !! AuditLogger.log_file logger)
         = default "" (files w !! AuditLogger.log_file logger) +:+ concat_lines es).
  { intros (es & ? & ? & ?). by exists es. }
  clear acc.
  induction Hsol as [w|a rest rc d ds w w1 w2 w3 Hrc Hrev Hlogged _ IH].
  - exists []. split; [constructor|]. split; [done|].
    cbn. by rewrite string_app_nil_r.
  - destruct IH as (es & Hes & Hlen & Hfile).
    unfold logged in Hlogged. rewrite Hlogger in Hlogged.
    rewrite log_review_run in Hlogged.
    destruct (AuditLogger.log_entry _ _ _ _ _ _ _) as [e|] eqn:He; [| discriminate].
    injection Hlogged as <-.
    exists (e :: es). split; [| split].
    + constructor; [| exact Hes]. cbn [fst snd].
      apply log_entry_fields in He as (aa & ea & cx & ->). by eexists _, _, _, _.
    + cbn. by rewrite Hlen.
    + rewrite Hfile. destruct w1 as [h inp o f t0 nw ed]. norm_world.
      rewrite lookup_insert_eq. cbn [default concat_lines].
      rewrite <- (Hquiet _ _ _ _ _ _ Hrev). norm_world.
      unfold id. by rewrite string_app_assoc.
Qed.

End loop_more.

(** ** The data room *)

Section data_room.
Import DataRoom.

Lemma find_document_first docs id :
  match find_document docs id with
  | Some doc =>
      exists j, docs !! j = Some doc /\ doc_id doc = id /\
                forall k d, (k < j)%nat -> docs !! k = Some d -> doc_id d <> id
  | None => forall d, d ∈ docs -> doc_id d <> id
  end.
Proof.
  induction docs as [|doc docs IH]; cbn [find_document].
  - intros d Hd. by apply elem_of_nil in Hd.
  - destruct (String.eqb_spec (doc_id doc) id) as [E|E].
    + exists 0%nat. repeat split; [exact E|]. intros k d Hk. lia.
    + destruct (find_document docs id) as [found|].
      * destruct IH as (j & Hj & Hid & Hfirst). exists (S j). repeat split; try done.
        intros [|k] d Hk Hd; [by injection Hd as <-|].
        apply (Hfirst k d); [lia | exact Hd].
      * intros d [->|Hd]%elem_of_cons; [exact E | by apply IH].
Qed.

(** X21: every document the index lists can be fetched by its id, and what
    is fetched is the first document with that id: a later document
    with the same id is listed but never returned.  An id that is not
    listed fetches nothing. *)
Theorem listed_documents_are_found self :
  (forall i e,
     get_document_index self !! i = Some e ->
     exists j doc,
       (j <= i)%nat /\
       documents self !! j = Some doc /\
       get_document self (entry_doc_id e) = Some doc /\
       doc_id doc = entry_doc_id e /\
       forall k d, (k < j)%nat -> documents self !! k = Some d ->
                   doc_id d <> entry_doc_id e) /\
  (forall id,
     get_document self id = None <-> id ∉ entry_doc_id <$> get_document_index self).
Proof.
  split.
  - intros i e Hi. unfold get_document_index in Hi.
    rewrite list_lookup_fmap in Hi.
    destruct (documents self !! i) as [listed|] eqn:Hlisted; [| discriminate].
    injection Hi as <-. cbn [entry_doc_id].
    unfold get_document.
    pose proof (find_document_first (documents self) (doc_id listed)) as Hfind.
    destruct (find_document (documents self) (doc_id listed)) as [doc|].
    + destruct Hfind as (j & Hj & Hid & Hfirst). exists j, doc.
      repeat split; try done.
      destruct (decide (j <= i)%nat) as [|Hgt]; [done|].
      exfalso. apply (Hfirst i listed); [lia | exact Hlisted | reflexivity].
    + exfalso. apply (Hfind listed); [| reflexivity].
      by apply list_elem_of_lookup_2 in Hlisted.
  - intros id. unfold get_document, get_document_index.
    pose proof (find_document_first (documents self) id) as Hfind.
    rewrite <- list_fmap_compose. split.
    + intros E. rewrite E in Hfind. intros (d & -> & Hd)%list_elem_of_fmap.
      by apply (Hfind d).
    + intros Hnot. destruct (find_document (documents self) id) as [doc|]; [| done].
      destruct Hfind as (j & Hj & Hid & _). exfalso. apply Hnot.
      apply list_elem_of_fmap. exists doc. split; [by rewrite <- Hid|].
      by apply list_elem_of_lookup_2 in Hj.
Qed.




End data_room.

(** ** Loading a JSON tree and reading it back *)




Lemma to_json_aux_scalar fuel h inside v :
  match v with PRef _ => False | _ => True end ->
  to_json_aux fuel h inside v
  = match v with
    | PNone => Some JNull
    | PBool b => Some (JBool b)
    | PInt z => Some (JInt z)
    | PFloat r => Some (JFloat r)
    | PStr s => Some (JStr s)
    | PRef _ => None
    end.
Proof. by destruct fuel, v. Qed.



Section generic_edit.
Context `{PyRuntime}.
Import CLIReviewInterface.



End generic_edit.

(** ** The properties above on concrete runs *)

Section more_concrete.
#[local] Existing Instance MiniRuntime.runtime.

(** An [edit_file] action under a configuration without edit: two
    refused lines, then a reject. *)
Lemma review_without_edit_is_terminal_only_witness :
terminal_only
  (Fixtures.world0 ∅ [Line "2"; Line "x"; Line "3"])
  (CLIReviewInterface.review_action (ActionRequest "edit_file" PNone)
     (ReviewConfig "edit_file" (Some ["approve"; "reject"])) None
     (Fixtures.world0 ∅ [Line "2"; Line "x"; Line "3"])).2.
Proof.
apply (review_without_edit_is_terminal_only (ActionRequest "edit_file" PNone)
         (ReviewConfig "edit_file" (Some ["approve"; "reject"])) None
         (Fixtures.world0 ∅ [Line "2"; Line "x"; Line "3"])).
apply not_in_list. reflexivity.
Defined.

(** A [task] action whose subagent is changed in the edit mode. *)
Lemma review_keeps_objects_witness :
heap (Fixtures.world0 Fixtures.task_heap [Line "2"; Line "2"; Line "report-creator"])
  ⊆ heap (CLIReviewInterface.review_action Fixtures.task_action
            (ReviewConfig "task" None) None
            (Fixtures.world0 Fixtures.task_heap
               [Line "2"; Line "2"; Line "report-creator"])).2 /\
forall v j,
  to_json (heap (Fixtures.world0 Fixtures.task_heap
                   [Line "2"; Line "2"; Line "report-creator"])) v = Some j ->
  to_json (heap (CLIReviewInterface.review_action Fixtures.task_action
                   (ReviewConfig "task" None) None
                   (Fixtures.world0 Fixtures.task_heap
                      [Line "2"; Line "2"; Line "report-creator"])).2) v = Some j.
Proof.
apply (review_keeps_objects Fixtures.task_action (ReviewConfig "task" None) None
         (Fixtures.world0 Fixtures.task_heap [Line "2"; Line "2"; Line "report-creator"])).
discriminate.
Defined.

(** Approve and edit allowed, reject not: the edit mode entered and
    cancelled gives a reject all the same. *)
Lemma review_decision_within_allowed_witness :
(CLIReviewInterface.review_action Fixtures.task_action
   (ReviewConfig "task" (Some ["approve"; "edit"])) None
   (Fixtures.world0 Fixtures.task_heap [Line "2"; Line "4"])).1 = Ok reject /\
decision_within (allowed_of (ReviewConfig "task" (Some ["approve"; "edit"])))
  Fixtures.task_action reject.
Proof.
split; [vm_compute; reflexivity|].
apply (review_decision_within_allowed Fixtures.task_action
         (ReviewConfig "task" (Some ["approve"; "edit"])) None
         (Fixtures.world0 Fixtures.task_heap [Line "2"; Line "4"]) reject
         (CLIReviewInterface.review_action Fixtures.task_action
            (ReviewConfig "task" (Some ["approve"; "edit"])) None
            (Fixtures.world0 Fixtures.task_heap [Line "2"; Line "4"])).2).
vm_compute. reflexivity.
Defined.









(** Three reviews logged to an absent store, count by count. *)
Lemma stats_count_each_tool_decision_and_reviewer_witness :
exists stats,
  AuditLogger.get_review_stats Fixtures.audit
    (log_all Fixtures.audit Fixtures.three_reviews
       (Fixtures.world0 Fixtures.todo_heap [])).2
  = (Ok (Some stats),
     (log_all Fixtures.audit Fixtures.three_reviews
        (Fixtures.world0 Fixtures.todo_heap [])).2) /\
  (forall k,
     by_decision stats !! KStr k
     = if bool_decide (k ∈ ["approve"; "edit"; "reject"])
       then Some (reviews_with (fun r => type (rr_decision r)) k Fixtures.three_reviews)
       else positive (reviews_with (fun r => type (rr_decision r)) k
                        Fixtures.three_reviews)) /\
  (forall k,
     by_tool stats !! KStr k
     = positive (reviews_with (fun r => name (rr_action r)) k Fixtures.three_reviews)) /\
  (forall k,
     by_reviewer stats !! KStr k
     = positive (reviews_with rr_reviewer k Fixtures.three_reviews)).
Proof.
apply (stats_count_each_tool_decision_and_reviewer Fixtures.audit Fixtures.three_reviews
         (Fixtures.world0 Fixtures.todo_heap [])).
- discriminate.
- reflexivity.
- vm_compute. reflexivity.
- intros [|[|[|i]]] r e Hr He; try discriminate;
    injection Hr as <-; vm_compute in He; injection He as <-;
    split; vm_compute; reflexivity.
Defined.

(** An action whose arguments are a list that contains itself. *)
Lemma unserializable_review_leaves_an_empty_log_witness :
(AuditLogger.log_review Fixtures.audit Scenes.cyclic_action approve "user_a" "session_001"
   None (Fixtures.world0 Scenes.cyclic_heap [])).1 = Raise ValueError /\
files (AuditLogger.log_review Fixtures.audit Scenes.cyclic_action approve "user_a"
         "session_001" None (Fixtures.world0 Scenes.cyclic_heap [])).2
  !! AuditLogger.log_file Fixtures.audit = Some "" /\
heap (AuditLogger.log_review Fixtures.audit Scenes.cyclic_action approve "user_a"
        "session_001" None (Fixtures.world0 Scenes.cyclic_heap [])).2
= heap (Fixtures.world0 Scenes.cyclic_heap []) /\
AuditLogger.get_review_stats Fixtures.audit (Fixtures.world0 Scenes.cyclic_heap [])
= (Ok None, Fixtures.world0 Scenes.cyclic_heap []) /\
AuditLogger.get_review_stats Fixtures.audit
  (AuditLogger.log_review Fixtures.audit Scenes.cyclic_action approve "user_a"
     "session_001" None (Fixtures.world0 Scenes.cyclic_heap [])).2
= (Ok (Some AuditLogger.stats0),
   (AuditLogger.log_review Fixtures.audit Scenes.cyclic_action approve "user_a"
      "session_001" None (Fixtures.world0 Scenes.cyclic_heap [])).2).
Proof.
apply (unserializable_review_leaves_an_empty_log Fixtures.audit Scenes.cyclic_action approve
         "user_a" "session_001" None (Fixtures.world0 Scenes.cyclic_heap []));
  reflexivity.
Defined.

(** Two entries followed by two blank lines. *)
Lemma audit_logs_skip_blank_lines_witness :
Backend.get_audit_logs "review_audit.jsonl" (Scenes.log_with_blank_lines MiniRuntime.runtime)
= (Ok (Backend.AuditLogs (drop (length Scenes.two_entries - 100) Scenes.two_entries)
         (Z.of_nat (length Scenes.two_entries))),
   Scenes.log_with_blank_lines MiniRuntime.runtime).
Proof.
apply (audit_logs_skip_blank_lines "review_audit.jsonl" Scenes.two_entries 2%nat
         (Scenes.log_with_blank_lines MiniRuntime.runtime)).
- reflexivity.
- repeat constructor; try (vm_compute; reflexivity); vm_compute; discriminate.
Defined.


(** An agent that pauses once, with one pass allowed: the run makes
    its one resume, the agent finishes, and the warning is printed. *)
Lemma run_returns_the_last_result_witness :
(exists c,
   last (calls (run_agent_with_hitl
                  (Fixtures.config_with (Fixtures.pause_once ["task"])
                     (AutoApproveInterface false) None)
                  "Test" "test_001" 1 (Session [] (Fixtures.world0 ∅ []))).2)
   = Some (c, Fixtures.done)) /\
0 <= Z.of_nat (length (calls (run_agent_with_hitl
                  (Fixtures.config_with (Fixtures.pause_once ["task"])
                     (AutoApproveInterface false) None)
                  "Test" "test_001" 1 (Session [] (Fixtures.world0 ∅ []))).2)) - 1 /\
(is_Some (pending Fixtures.done) ->
 1 <= Z.of_nat (length (calls (run_agent_with_hitl
                  (Fixtures.config_with (Fixtures.pause_once ["task"])
                     (AutoApproveInterface false) None)
                  "Test" "test_001" 1 (Session [] (Fixtures.world0 ∅ []))).2)) - 1) /\
(1 <= Z.of_nat (length (calls (run_agent_with_hitl
                  (Fixtures.config_with (Fixtures.pause_once ["task"])
                     (AutoApproveInterface false) None)
                  "Test" "test_001" 1 (Session [] (Fixtures.world0 ∅ []))).2)) - 1 ->
 last (stdout (the_world (run_agent_with_hitl
                  (Fixtures.config_with (Fixtures.pause_once ["task"])
                     (AutoApproveInterface false) None)
                  "Test" "test_001" 1 (Session [] (Fixtures.world0 ∅ []))).2))
 = Some (warning 1)).
Proof.
apply (run_returns_the_last_result
         (Fixtures.config_with (Fixtures.pause_once ["task"])
            (AutoApproveInterface false) None)
         "Test" "test_001" 1 (Fixtures.world0 ∅ []) Fixtures.done).
vm_compute. reflexivity.
Defined.


(** Two actions, the first under a configuration that allows reject
    only: both are approved. *)
Lemma auto_approve_approves_every_action_witness :
collect_decisions
  (AgentConfig Scenes.finished ApprovalLevel.high_oversight (AutoApproveInterface true)
     "test" None)
  "session_001" 1 Scenes.two_configs Scenes.two_actions [] (Fixtures.world0 ∅ [])
= (Ok [approve; approve],
   set_stdout ["[AUTO-APPROVED] task"; "[AUTO-APPROVED] write_file"]
     (Fixtures.world0 ∅ [])).
Proof.
apply (auto_approve_approves_every_action true Scenes.finished ApprovalLevel.high_oversight
         "test" "session_001" 1 Scenes.two_configs Scenes.two_actions).
repeat constructor; eexists; vm_compute; reflexivity.
Defined.

(** Two actions approved with a logger: two lines in the log. *)
Lemma decisions_of_a_batch_are_logged_witness :
exists ds' es,
  (collect_decisions
     (Fixtures.config_with Scenes.finished (AutoApproveInterface false)
        (Some Fixtures.audit))
     "session_001" 1 Scenes.two_configs Scenes.two_actions []
     (Fixtures.world0 ∅ [])).1 = Ok ([] ++ ds')%list /\
  Forall2 (fun ad e => entry_for "session_001" "test" ad.1 ad.2 e)
    (zip Scenes.two_actions ds') es /\
  length ds' = length Scenes.two_actions /\
  default ""
    (files (collect_decisions
              (Fixtures.config_with Scenes.finished (AutoApproveInterface false)
                 (Some Fixtures.audit))
              "session_001" 1 Scenes.two_configs Scenes.two_actions []
              (Fixtures.world0 ∅ [])).2 !! AuditLogger.log_file Fixtures.audit)
  = default "" (files (Fixtures.world0 ∅ []) !! AuditLogger.log_file Fixtures.audit)
    +:+ concat_lines es.
Proof.
destruct (decisions_of_a_batch_are_logged
            (Fixtures.config_with Scenes.finished (AutoApproveInterface false)
               (Some Fixtures.audit))
            Fixtures.audit "session_001" 1 Scenes.two_configs Scenes.two_actions
            eq_refl
            (fun a rc ctx w d w1 E =>
               eq_sym (f_equal (fun r => files r.2 !! AuditLogger.log_file Fixtures.audit) E))
            [] (Fixtures.world0 ∅ [])
            [approve; approve]
            (collect_decisions
               (Fixtures.config_with Scenes.finished (AutoApproveInterface false)
                  (Some Fixtures.audit))
               "session_001" 1 Scenes.two_configs Scenes.two_actions []
               (Fixtures.world0 ∅ [])).2)
  as (ds' & es & Hds & Hes & Hlen & Hfile).
- vm_compute. reflexivity.
- exists ds', es. split; [rewrite <- Hds; vm_compute; reflexivity|].
  repeat split; assumption.
Defined.

(** The third document of the room shares its id with the first: it
    is listed, and fetching its id gives the first. *)
Lemma listed_documents_are_found_witness :
exists j doc,
  (j <= 2)%nat /\
  DataRoom.documents Scenes.room !! j = Some doc /\
  DataRoom.get_document Scenes.room "doc_001" = Some doc /\
  DataRoom.doc_id doc = "doc_001" /\
  forall k d, (k < j)%nat -> DataRoom.documents Scenes.room !! k = Some d ->
              DataRoom.doc_id d <> "doc_001".
Proof.
apply (proj1 (listed_documents_are_found Scenes.room) 2%nat
         (DataRoom.IndexEntry "doc_001" "Superseded draft")).
reflexivity.
Defined.

End more_concrete.
